(** * TT.py: the timetable web application

    The Flask handlers of [TT.py] are translated into functions over an
    explicit world: the database file, the session cookie and the exported
    spreadsheet; every run also yields the list of its events.  What lies
    outside the program (the password hash check, the CP-SAT solver,
    database and spreadsheet faults) is an oracle of the record [Env]. *)

From Stdlib Require Import ZArith DecimalString Ascii.
From stdpp Require Import gmap strings list fin_maps.

Open Scope Z_scope.

(** ** Python values *)

Module Py.

(** A [str] is held as its UTF-8 encoding, the form in which SQLite stores
    and compares [TEXT].  [utf8 c] is the encoding of the code point [c]. *)
Definition utf8 (c : N) : list ascii :=
  ascii_of_N <$>
  (if c <? 0x80 then [c]
   else if c <? 0x800 then [0xC0 + c `div` 0x40; 0x80 + c `mod` 0x40]
   else if c <? 0x10000 then
     [0xE0 + c `div` 0x1000; 0x80 + (c `div` 0x40) `mod` 0x40; 0x80 + c `mod` 0x40]
   else
     [0xF0 + c `div` 0x40000; 0x80 + (c `div` 0x1000) `mod` 0x40;
      0x80 + (c `div` 0x40) `mod` 0x40; 0x80 + c `mod` 0x40])%N.

(** The code points that are whitespace for [str]: the ASCII ones (TAB, LF,
    VT, FF, CR, FS, GS, RS, US, SPACE) and NEL, NO-BREAK SPACE, OGHAM SPACE
    MARK, EN QUAD to HAIR SPACE, LINE and PARAGRAPH SEPARATOR, NARROW
    NO-BREAK SPACE, MEDIUM MATHEMATICAL SPACE and IDEOGRAPHIC SPACE.
    [str.strip()] removes these from both ends. *)
Definition whitespace : list N :=
  [0x09; 0x0A; 0x0B; 0x0C; 0x0D; 0x1C; 0x1D; 0x1E; 0x1F; 0x20; 0x85; 0xA0;
   0x1680; 0x2000; 0x2001; 0x2002; 0x2003; 0x2004; 0x2005; 0x2006; 0x2007;
   0x2008; 0x2009; 0x200A; 0x2028; 0x2029; 0x202F; 0x205F; 0x3000]%N.

(** The first of [chars] that [s] starts with. *)
Definition leading (chars : list (list ascii)) (s : list ascii) : option (list ascii) :=
  head (filter (λ c, c `prefix_of` s) chars).

(** [s] without the [chars] it starts with; no more than [fuel] of them
    are removed, and [length s] is enough for all of them (lemma
    [lstrip_chars_done]). *)
Fixpoint lstrip_chars (chars : list (list ascii)) (fuel : nat) (s : list ascii)
  : list ascii :=
  match fuel with
  | O => s
  | S fuel =>
      match leading chars s with
      | Some c => lstrip_chars chars fuel (drop (length c) s)
      | None => s
      end
  end.

Definition lstrip (s : list ascii) : list ascii :=
  lstrip_chars (utf8 <$> whitespace) (length s) s.

Definition rstrip (s : list ascii) : list ascii :=
  reverse (lstrip_chars (reverse <$> (utf8 <$> whitespace)) (length s) (reverse s)).

(** [s.strip()]: on a well-formed encoding, a whitespace character at
    either end is one of the byte sequences of [whitespace], and no such
    sequence ends or begins inside another character. *)
Definition strip (s : string) : string :=
  String.string_of_list_ascii (rstrip (lstrip (String.list_ascii_of_string s))).

(** [not s] for a string: only the empty string is falsy. *)
Definition not_str (s : string) : bool := String.eqb s "".

(** [not x] for the result of [request.form.get]: [None] and the empty
    string are falsy. *)
Definition not_opt (x : option string) : bool :=
  match x with
  | None => true
  | Some s => not_str s
  end.

(** [str(n)], as used by f-strings. *)
Definition str (n : Z) : string := NilZero.string_of_int (Z.to_int n).

(** [min(l)] and [max(l)]; [None] stands for the [ValueError] raised on an
    empty list. *)
Definition min (l : list Z) : option Z :=
  match l with
  | [] => None
  | x :: l' => Some (foldl Z.min x l')
  end.

Definition max (l : list Z) : option Z :=
  match l with
  | [] => None
  | x :: l' => Some (foldl Z.max x l')
  end.

(** [len(set(l))] *)
Definition len_set (l : list Z) : nat := size (list_to_set l : gset Z).

(** [l[i] = x] on a list: negative indices count from the end, [None]
    stands for [IndexError]. *)
Definition setitem {A} (l : list A) (i : Z) (x : A) : option (list A) :=
  let n := Z.of_nat (length l) in
  let j := if i <? 0 then i + n else i in
  if (0 <=? j) && (j <? n) then Some (<[Z.to_nat j := x]> l) else None.

End Py.

(** ** The SQLite store *)

Record User := mkUser { u_username : string; u_password : string }.

Record Teacher := mkTeacher { t_id : Z; t_name : string; t_subject : string }.

(** A row of [timetable]; its [id] and [timestamp] columns are filled in by
    SQLite and no handler modelled here looks at them. *)
Record Entry := mkEntry { class_name : string; slot : Z; teacher_name : string }.

(** Rows are kept in rowid order.  [teachers_seq] is the [sqlite_sequence]
    counter behind [AUTOINCREMENT]. *)
Record Database := mkDatabase {
  users : list User;
  teachers : list Teacher;
  teachers_seq : Z;
  timetable : list Entry
}.

Module Sql.

(** Insertion into a list sorted by [le]; [order_by] is a stable sort. *)
Fixpoint insert_sorted {A} (le : A → A → bool) (x : A) (l : list A) : list A :=
  match l with
  | [] => [x]
  | y :: l' => if le x y then x :: l else y :: insert_sorted le x l'
  end.

Definition order_by {A} (le : A → A → bool) (l : list A) : list A :=
  foldr (insert_sorted le) [] l.

(** [ORDER BY class_name, slot]: byte-wise on the name, then numeric. *)
Definition entry_le (a b : Entry) : bool :=
  match String.compare (class_name a) (class_name b) with
  | Lt => true
  | Eq => slot a <=? slot b
  | Gt => false
  end.

(** [ORDER BY name ASC] *)
Definition teacher_le (a b : Teacher) : bool := String.leb (t_name a) (t_name b).

(** [SELECT password FROM users WHERE username = ?] then [fetchone()]. *)
Definition select_password (db : Database) (username : string) : option string :=
  u_password <$> head (filter (λ u, u_username u = username) (users db)).

(** [SELECT id, name, subject FROM teachers] *)
Definition select_teachers (db : Database) : list Teacher := teachers db.

(** [SELECT name, subject FROM teachers ORDER BY name ASC] *)
Definition select_teachers_by_name (db : Database) : list (string * string) :=
  (λ t, (t_name t, t_subject t)) <$> order_by teacher_le (teachers db).

(** [INSERT INTO teachers (name, subject) VALUES (?, ?)]: [None] stands for
    the [IntegrityError] of the [UNIQUE] constraint on [name]. *)
Definition insert_teacher (db : Database) (name subject : string) : option Database :=
  if bool_decide (name ∈ t_name <$> teachers db) then None
  else
    let rowid := foldl Z.max (teachers_seq db) (t_id <$> teachers db) + 1 in
    Some {| users := users db;
            teachers := teachers db ++ [mkTeacher rowid name subject];
            teachers_seq := rowid;
            timetable := timetable db |}.

(** [DELETE FROM teachers WHERE name = ?], with [cursor.rowcount]. *)
Definition delete_teacher (db : Database) (name : string) : Z * Database :=
  let kept := filter (λ t, t_name t ≠ name) (teachers db) in
  (Z.of_nat (length (teachers db)) - Z.of_nat (length kept),
   {| users := users db; teachers := kept;
      teachers_seq := teachers_seq db; timetable := timetable db |}).

(** [SELECT class_name, slot, teacher_name FROM timetable
     ORDER BY class_name, slot] *)
Definition select_timetable (db : Database) : list Entry :=
  order_by entry_le (timetable db).

(** [DELETE FROM timetable] *)
Definition delete_timetable (db : Database) : Database :=
  {| users := users db; teachers := teachers db;
     teachers_seq := teachers_seq db; timetable := [] |}.

Definition same_slot (a b : Entry) : bool :=
  String.eqb (class_name a) (class_name b) && (slot a =? slot b).

(** [INSERT INTO timetable (class_name, slot, teacher_name) VALUES (?, ?, ?)]
    under [UNIQUE(class_name, slot) ON CONFLICT REPLACE]: the row in
    conflict is deleted, then the new row is added. *)
Definition insert_timetable (db : Database) (e : Entry) : Database :=
  {| users := users db; teachers := teachers db;
     teachers_seq := teachers_seq db;
     timetable := List.filter (λ r, negb (same_slot r e)) (timetable db) ++ [e] |}.

End Sql.

(** ** The constraint model (ortools.sat.python.cp_model) *)

Module Cp.

Record IntVar := mkIntVar { lb : Z; ub : Z; var_name : string }.

(** A model is its variables, referred to by index, and its
    [AllDifferent] constraints. *)
Record CpModel := mkModel {
  variables : list IntVar;
  constraints : list (list nat)
}.

Definition empty : CpModel := mkModel [] [].

(** [model.NewIntVar(lb, ub, name)] returns the index of the new variable. *)
Definition NewIntVar (m : CpModel) (lo hi : Z) (name : string) : nat * CpModel :=
  (length (variables m),
   mkModel (variables m ++ [mkIntVar lo hi name]) (constraints m)).

(** [model.AddAllDifferent(vars)] *)
Definition AddAllDifferent (m : CpModel) (vars : list nat) : CpModel :=
  mkModel (variables m) (constraints m ++ [vars]).

(** The status codes of [CpSolverStatus]. *)
Definition UNKNOWN : Z := 0.
Definition MODEL_INVALID : Z := 1.
Definition FEASIBLE : Z := 2.
Definition INFEASIBLE : Z := 3.
Definition OPTIMAL : Z := 4.

(** An assignment [v] of the variables is a solution of [m]: every
    variable lies in its interval, every [AllDifferent] list takes
    pairwise distinct values. *)
Definition in_domain (v : nat → Z) (ix : nat * IntVar) : Prop :=
  lb ix.2 ≤ v ix.1 ≤ ub ix.2.

Definition solution (v : nat → Z) (m : CpModel) : Prop :=
  Forall (in_domain v) (imap pair (variables m)) ∧
  Forall (λ c, NoDup (v <$> c)) (constraints m).

Global Instance in_domain_dec v ix : Decision (in_domain v ix) :=
  and_dec _ _.

Global Instance solution_dec v m : Decision (solution v m) :=
  and_dec _ _.

(** What a run of [CpSolver.Solve] may report: a status and, through
    [solver.Value], a value for every variable.  With status [OPTIMAL] or
    [FEASIBLE] the values are a solution of the model. *)
Definition sound (m : CpModel) (r : Z * (nat → Z)) : Prop :=
  r.1 = OPTIMAL ∨ r.1 = FEASIBLE → solution r.2 m.

End Cp.

(** ** Requests, responses and the world a handler runs in *)

Inductive Method := GET | POST.

(** [request.method] and [request.form]. *)
Record Request := mkRequest { method : Method; form : gmap string string }.

(** The sheet written by [to_excel(..., index=False)]: a header and the
    rows under it, an empty cell being [None]. *)
Record DataFrame := mkFrame {
  columns : list string;
  rows : list (list (option string))
}.

Inductive Response :=
| Redirect (endpoint : string)
| LoginPage (error : option string)
| ModifyTeacherPage (listing : option (list (string * string)))
    (success_message error_message : option string)
| TimetablePage (grid : option (gmap string (list (option string))))
    (error_message : option string)
| JsonError (error : string) (status : Z)
| JsonTimetable (grid : gmap string (list string)) (success_message : string)
| Text (body : string) (status : Z)
| Crash (exception : string).

Inductive Statement :=
| SelectPassword | SelectTeachers | SelectTeachersByName | InsertTeacher
| DeleteTeacher | SelectTimetable | DeleteTimetable | InsertTimetable.

(** What a handler does besides answering, in order. *)
Inductive Event :=
| EvPrint (line : string)
| EvExecute (stmt : Statement)
| EvCommit
| EvCpModel
| EvNewIntVar (lo hi : Z) (name : string)
| EvAddAllDifferent (vars : list nat)
| EvSolve
| EvToExcel (filename : string).

Record World := mkWorld {
  w_db : Database;              (* timetable.db as committed *)
  w_session : option string;    (* session['user'] *)
  w_xlsx : option DataFrame     (* timetable.xlsx *)
}.

(** The statements and commits of the save phase of the generator, lines
    292 to 305. *)
Inductive SaveStep :=
| DeleteAll
| CommitDelete
| InsertRow (class_name : string) (period : Z)
| CommitRows.

(** The oracles of a request. *)
Record Env := mkEnv {
  (* werkzeug's check_password_hash(pwhash, password) *)
  check_password_hash : string → string → bool;
  (* the sqlite3.Error, if any, of the k-th connect_db() of the request *)
  connect_error : nat → option string;
  (* the sqlite3.Error other than IntegrityError, if any, raised by the
     INSERT or DELETE of modify_teacher *)
  execute_error : option string;
  (* CpSolver.Solve: the status and the values read by solver.Value *)
  solver : Cp.CpModel → Z * (nat → Z);
  (* the exception, if any, raised by to_excel *)
  excel_error : option string;
  (* the sqlite3.Error, if any, raised by a statement or commit of the save
     phase of generate_timetable_process *)
  save_error : SaveStep → option string
}.

(** The status line Flask sends for a response. *)
Definition http_status (r : Response) : Z :=
  match r with
  | Redirect _ => 302
  | JsonError _ status | Text _ status => status
  | Crash _ => 500
  | _ => 200
  end.

(** A handler body either goes on with a value or has executed [return]. *)
Inductive Outcome (A : Type) :=
| Next (a : A)
| Return (r : Response).
Arguments Next {A} a.
Arguments Return {A} r.

(** A computation changes the world and logs its events, oldest first. *)
Definition Handler (A : Type) : Type := World → Outcome A * World * list Event.

Global Instance handler_ret : MRet Handler := λ A a w, (Next a, w, []).

Global Instance handler_bind : MBind Handler := λ A B k m w,
  match m w with
  | (Next a, w', log) =>
      match k a w' with
      | (o, w'', log') => (o, w'', log ++ log')
      end
  | (Return r, w', log) => (Return r, w', log)
  end.

Definition return_ {A} (r : Response) : Handler A := λ w, (Return r, w, []).

(** An exception nobody catches ends the request. *)
Definition raise {A} (exception : string) : Handler A := return_ (Crash exception).

Definition run (h : Handler Response) (w : World) : Response * World * list Event :=
  match h w with
  | (Next r, w', log) => (r, w', log)
  | (Return r, w', log) => (r, w', log)
  end.

Definition emit (e : Event) : Handler unit := λ w, (Next (), w, [e]).

Definition print (line : string) : Handler unit := emit (EvPrint line).

Definition session_get : Handler (option string) := λ w, (Next (w_session w), w, []).

Definition session_set (user : option string) : Handler unit := λ w,
  (Next (), mkWorld (w_db w) user (w_xlsx w), []).

Definition committed : Handler Database := λ w, (Next (w_db w), w, []).

(** [connect_db()]: the connection starts from the committed database. *)
Definition connect_db (env : Env) (k : nat) : Handler (option Database) :=
  match connect_error env k with
  | Some e => print ("Database connection error: " +:+ e);; mret None
  | None => db ← committed; mret (Some db)
  end.

(** [cursor.execute(stmt)] is logged; its effect on the connection is
    computed by the functions of [Sql]. *)
Definition execute (stmt : Statement) : Handler unit := emit (EvExecute stmt).

(** [conn.commit()] makes the state of the connection the committed one. *)
Definition commit (conn : Database) : Handler unit := λ w,
  (Next (), mkWorld conn (w_session w) (w_xlsx w), [EvCommit]).

(** [for x in xs: body], the loop variables being threaded through. *)
Fixpoint for_each {X S} (xs : list X) (body : X → S → Handler S) (s : S) : Handler S :=
  match xs with
  | [] => mret s
  | x :: xs' => s' ← body x s; for_each xs' body s'
  end.

(** [[f(x) for x in xs]] *)
Fixpoint comprehension {X Y} (xs : list X) (f : X → Handler Y) : Handler (list Y) :=
  match xs with
  | [] => mret []
  | x :: xs' => y ← f x; ys ← comprehension xs' f; mret (y :: ys)
  end.

(** [d[k]], raising [KeyError] on a missing key. *)
Definition getitem `{Countable K} {V} (d : gmap K V) (k : K) : Handler V :=
  match d !! k with
  | Some v => mret v
  | None => raise "KeyError"
  end.

(** ** Route 1: login *)

Definition login (env : Env) (req : Request) : Handler Response :=
  match method req with
  | POST =>
      match form req !! "username", form req !! "password" with
      | Some username, Some password =>
          if Py.not_str username || Py.not_str password then
            return_ (LoginPage (Some "Username and password are required."))
          else
            conn ← connect_db env 0;
            match conn with
            | None => return_ (LoginPage (Some "Database connection failed."))
            | Some conn =>
                execute SelectPassword;;
                match Sql.select_password conn username with
                | Some pwhash =>
                    if check_password_hash env pwhash password then
                      session_set (Some username);;
                      return_ (Redirect "dashboard")
                    else return_ (LoginPage (Some "Invalid Credentials."))
                | None => return_ (LoginPage (Some "Invalid Credentials."))
                end
            end
      | _, _ => return_ (LoginPage (Some "Username and password are required."))
      end
  | GET => return_ (LoginPage None)
  end.

(** ** Routes 2 and 3: add or delete a teacher *)

Definition added_message (name : string) : string :=
  "Teacher '" +:+ name +:+ "' added successfully!".
Definition exists_message (name : string) : string :=
  "Teacher '" +:+ name +:+ "' already exists.".
Definition add_error_message (e : string) : string :=
  "Error adding teacher: " +:+ e.
Definition deleted_message (name : string) : string :=
  "Teacher '" +:+ name +:+ "' deleted successfully!".
Definition not_found_message (name : string) : string :=
  "Teacher '" +:+ name +:+ "' not found.".
Definition delete_error_message (e : string) : string :=
  "Error deleting teacher: " +:+ e.

(** The [POST] branch: the connection and the two messages afterwards. *)
Definition modify_teacher_post (env : Env) (req : Request) (conn : Database)
  : Handler (Database * option string * option string) :=
  match form req !! "name", form req !! "subject", form req !! "delete_name" with
  | Some name, Some subject, _ =>
      let name := Py.strip name in
      let subject := Py.strip subject in
      if Py.not_str name || Py.not_str subject then
        mret (conn, None, Some "Teacher name and subject are required.")
      else
        execute InsertTeacher;;
        match execute_error env with
        | Some e => mret (conn, None, Some (add_error_message e))
        | None =>
            match Sql.insert_teacher conn name subject with
            | Some conn' =>
                commit conn';;
                mret (conn', Some (added_message name), None)
            | None => mret (conn, None, Some (exists_message name))
            end
        end
  | _, _, Some delete_name =>
      let delete_name := Py.strip delete_name in
      if Py.not_str delete_name then
        mret (conn, None, Some "Teacher name to delete is required.")
      else
        execute DeleteTeacher;;
        match execute_error env with
        | Some e => mret (conn, None, Some (delete_error_message e))
        | None =>
            let '(rowcount, conn') := Sql.delete_teacher conn delete_name in
            if 0 <? rowcount then
              commit conn';;
              mret (conn', Some (deleted_message delete_name), None)
            else mret (conn', None, Some (not_found_message delete_name))
        end
  | _, _, None => mret (conn, None, None)
  end.

Definition modify_teacher (env : Env) (req : Request) : Handler Response :=
  user ← session_get;
  match user with
  | None => return_ (Redirect "login")
  | Some _ =>
      conn ← connect_db env 0;
      match conn with
      | None =>
          return_ (ModifyTeacherPage None None (Some "Database connection failed."))
      | Some conn =>
          '(conn, success_message, error_message) ←
            match method req with
            | POST => modify_teacher_post env req conn
            | GET => mret (conn, None, None)
            end;
          execute SelectTeachersByName;;
          let listing := Sql.select_teachers_by_name conn in
          return_ (ModifyTeacherPage (Some listing) success_message error_message)
      end
  end.

(** ** Route 4 (GET): the last generated timetable as a grid *)

Definition slot_warning (row : Entry) : string :=
  "Warning: Unexpected slot number " +:+ Py.str (slot row) +:+
  " for class " +:+ class_name row.

(** Lines 211-223: the body of the loop over the fetched rows. *)
Definition place_row (row : Entry) (data : gmap string (list (option string)))
  : Handler (gmap string (list (option string))) :=
  let data :=
    match data !! class_name row with
    | None => <[class_name row := replicate 5 None]> data
    | Some _ => data
    end in
  if (1 <=? slot row) && (slot row <=? 5) then
    cells ← getitem data (class_name row);
    match Py.setitem cells (slot row - 1) (Some (teacher_name row)) with
    | Some cells' => mret (<[class_name row := cells']> data)
    | None => raise "IndexError"
    end
  else
    print (slot_warning row);; mret data.

Definition view_generate_timetable_page (env : Env) : Handler Response :=
  user ← session_get;
  match user with
  | None => return_ (Redirect "login")
  | Some _ =>
      conn ← connect_db env 0;
      match conn with
      | None => return_ (TimetablePage None (Some "Database connection failed."))
      | Some conn =>
          execute SelectTimetable;;
          let fetched := Sql.select_timetable conn in
          last_generated_timetable_data ← for_each fetched place_row ∅;
          return_ (TimetablePage (Some last_generated_timetable_data) None)
      end
  end.

(** ** Route 4 (POST): timetable generation *)

Definition classes : list string := ["MCA I"; "MCA II"; "MSC I"; "MSC II"].

(** [range(1, 6)] *)
Definition periods : list Z := [1; 2; 3; 4; 5].

Definition no_teachers_message : string :=
  "No teachers registered. Please add teachers to generate a timetable.".
Definition per_period_message : string :=
  "Not enough unique teachers to assign a different teacher to each class for every period.".
Definition per_class_message (class_name : string) : string :=
  "Not enough unique teachers for class '" +:+ class_name +:+
  "' to have a different teacher for each period.".
Definition infeasible_message : string :=
  "The current set of teachers and classes makes it impossible to generate a timetable that satisfies all constraints. Please check the number of teachers or simplify constraints.".
Definition invalid_message : string :=
  "The timetable model itself is invalid. This indicates an issue with constraint formulation.".
Definition unknown_message : string :=
  "The solver could not determine a solution within the given time limit. Try increasing the time limit or simplifying the problem.".
Definition unexpected_message : string :=
  "An unexpected error occurred during timetable generation.".

(** [{t['id']: t['name'] for t in teachers_data}] *)
Definition teachers_map_of (teachers_data : list Teacher) : gmap Z string :=
  foldl (λ m t, <[t_id t := t_name t]> m) ∅ teachers_data.

(** [teachers_map.get(teacher_id, f"Unknown Teacher ID: {teacher_id}")] *)
Definition name_of (teachers_map : gmap Z string) (teacher_id : Z) : string :=
  default ("Unknown Teacher ID: " +:+ Py.str teacher_id) (teachers_map !! teacher_id).

Definition value_of_min (l : list Z) : Handler Z :=
  match Py.min l with Some x => mret x | None => raise "ValueError" end.

Definition value_of_max (l : list Z) : Handler Z :=
  match Py.max l with Some x => mret x | None => raise "ValueError" end.

Definition NewIntVar (model : Cp.CpModel) (lo hi : Z) (name : string)
  : Handler (nat * Cp.CpModel) :=
  emit (EvNewIntVar lo hi name);; mret (Cp.NewIntVar model lo hi name).

Definition AddAllDifferent (model : Cp.CpModel) (vars : list nat) : Handler Cp.CpModel :=
  emit (EvAddAllDifferent vars);; mret (Cp.AddAllDifferent model vars).

Definition Solve (env : Env) (model : Cp.CpModel) : Handler (Z * (nat → Z)) :=
  emit EvSolve;; mret (solver env model).

(** Lines 258-261: one variable per class and period, over
    [min(teacher_ids) .. max(teacher_ids)]. *)
Definition create_variables (teacher_ids : list Z) (model : Cp.CpModel)
  : Handler (Cp.CpModel * gmap (string * Z) nat) :=
  for_each classes (λ class_name,
    for_each periods (λ period '(model, timetable_vars),
      lo ← value_of_min teacher_ids;
      hi ← value_of_max teacher_ids;
      '(var, model) ← NewIntVar model lo hi
                        ("c" +:+ class_name +:+ "_p" +:+ Py.str period);
      mret (model, <[(class_name, period) := var]> timetable_vars)))
    (model, ∅).

(** Lines 265-270: per period, the classes get different teachers. *)
Definition add_period_constraints (teacher_ids : list Z)
    (timetable_vars : gmap (string * Z) nat) (model : Cp.CpModel)
  : Handler Cp.CpModel :=
  for_each periods (λ period model,
    assigned_teachers_in_period ←
      comprehension classes (λ class_name, getitem timetable_vars (class_name, period));
    if bool_decide (length classes ≤ Py.len_set teacher_ids)%nat then
      AddAllDifferent model assigned_teachers_in_period
    else return_ (JsonError per_period_message 400))
    model.

(** Lines 273-278: per class, the periods get different teachers. *)
Definition add_class_constraints (teacher_ids : list Z)
    (timetable_vars : gmap (string * Z) nat) (model : Cp.CpModel)
  : Handler Cp.CpModel :=
  for_each classes (λ class_name model,
    class_teachers ←
      comprehension periods (λ period, getitem timetable_vars (class_name, period));
    if bool_decide (length periods ≤ Py.len_set teacher_ids)%nat then
      AddAllDifferent model class_teachers
    else return_ (JsonError (per_class_message class_name) 400))
    model.

(** A statement of the save phase: it is executed, and may raise.  Nothing
    catches the [sqlite3.Error]: the request ends with it, and what the
    connection has not committed is lost with the connection. *)
Definition execute_or_raise (env : Env) (step : SaveStep) (stmt : Statement)
  : Handler unit :=
  execute stmt;;
  match save_error env step with
  | Some e => raise e
  | None => mret ()
  end.

(** [conn.commit()] in the save phase: it raises, or it makes the state of
    the connection the committed one. *)
Definition commit_or_raise (env : Env) (step : SaveStep) (conn : Database)
  : Handler unit :=
  match save_error env step with
  | Some e => emit EvCommit;; raise e
  | None => commit conn
  end.

(** Lines 288-308: the success branch. *)
Definition save_timetable (env : Env) (teachers_map : gmap Z string)
    (timetable_vars : gmap (string * Z) nat) (Value : nat → Z)
  : Handler Response :=
  conn ← connect_db env 1;
  match conn with
  | None => return_ (JsonError "Database connection failed for saving." 500)
  | Some conn =>
      execute_or_raise env DeleteAll DeleteTimetable;;
      let conn := Sql.delete_timetable conn in
      commit_or_raise env CommitDelete conn;;
      '(conn, generated_timetable_display) ←
        for_each classes (λ class_name '(conn, display),
          let display := <[class_name := []]> display in
          for_each periods (λ period '(conn, display),
            var ← getitem timetable_vars (class_name, period);
            let teacher_id := Value var in
            let teacher_name := name_of teachers_map teacher_id in
            column ← getitem display class_name;
            let display := <[class_name := column ++ [teacher_name]]> display in
            execute_or_raise env (InsertRow class_name period) InsertTimetable;;
            let conn := Sql.insert_timetable conn (mkEntry class_name period teacher_name) in
            mret (conn, display))
            (conn, display))
          (conn, ∅);
      commit_or_raise env CommitRows conn;;
      return_ (JsonTimetable generated_timetable_display "Timetable generated successfully!")
  end.

(** Lines 311-318: the message for a status. *)
Definition failure_message (status : Z) : string :=
  if status =? Cp.INFEASIBLE then infeasible_message
  else if status =? Cp.MODEL_INVALID then invalid_message
  else if status =? Cp.UNKNOWN then unknown_message
  else unexpected_message.

(** Lines 310-320: the failure branch.  Its [conn.close()] closes, once
    more, the connection the roster was read from. *)
Definition report_failure (status : Z) : Handler Response :=
  let error_message := failure_message status in
  return_ (JsonError error_message 500).

Definition generate_timetable_process (env : Env) : Handler Response :=
  user ← session_get;
  match user with
  | None => return_ (JsonError "Unauthorized" 401)
  | Some _ =>
      conn ← connect_db env 0;
      match conn with
      | None => return_ (JsonError "Database connection failed." 500)
      | Some conn =>
          execute SelectTeachers;;
          let teachers_data := Sql.select_teachers conn in
          match teachers_data with
          | [] => return_ (JsonError no_teachers_message 400)
          | _ =>
              let teachers_map := teachers_map_of teachers_data in
              let teacher_ids := t_id <$> teachers_data in
              emit EvCpModel;;
              '(model, timetable_vars) ← create_variables teacher_ids Cp.empty;
              model ← add_period_constraints teacher_ids timetable_vars model;
              model ← add_class_constraints teacher_ids timetable_vars model;
              '(status, Value) ← Solve env model;
              if (status =? Cp.OPTIMAL) || (status =? Cp.FEASIBLE) then
                save_timetable env teachers_map timetable_vars Value
              else report_failure status
          end
      end
  end.

(** ** Route 5: export to a spreadsheet *)

(** [df.pivot_table(index='class_name', columns='slot',
    values='teacher_name', aggfunc='first')]: the index is the sorted
    distinct class names, the columns are the sorted distinct slots, and a
    cell holds the teacher of the first fetched row of its class and slot.
    No row has a null teacher, so no column is dropped as all-empty. *)
Definition pivot_index (fetched : list Entry) : list string :=
  Sql.order_by String.leb (remove_dups (class_name <$> fetched)).

Definition pivot_columns (fetched : list Entry) : list Z :=
  Sql.order_by Z.leb (remove_dups (slot <$> fetched)).

Definition pivot_cell (fetched : list Entry) (c : string) (s : Z) : option string :=
  teacher_name <$> head (filter (λ r, class_name r = c ∧ slot r = s) fetched).

(** Lines 399-402: the pivot with its columns renamed to [Period n], the
    index turned into a first column and that column renamed to [Class]. *)
Definition pivot_df (fetched : list Entry) : DataFrame :=
  let cols := pivot_columns fetched in
  {| columns := "Class" :: ((λ col, "Period " +:+ Py.str col) <$> cols);
     rows := (λ c, Some c :: (pivot_cell fetched c <$> cols)) <$> pivot_index fetched |}.

Definition to_excel (env : Env) (df : DataFrame) (filename : string)
  : Handler (option string) := λ w,
  match excel_error env with
  | Some e => (Next (Some e), w, [])
  | None => (Next None, mkWorld (w_db w) (w_session w) (Some df), [EvToExcel filename])
  end.

Definition export_timetable (env : Env) : Handler Response :=
  user ← session_get;
  match user with
  | None => return_ (Redirect "login")
  | Some _ =>
      conn ← connect_db env 0;
      match conn with
      | None => return_ (Text "Database connection failed for export." 500)
      | Some conn =>
          execute SelectTimetable;;
          let df := Sql.select_timetable conn in
          match df with
          | [] => return_ (Text "No timetable data to export." 404)
          | _ =>
              let excel_filename := "timetable.xlsx" in
              raised ← to_excel env (pivot_df df) excel_filename;
              match raised with
              | Some e =>
                  print ("Error exporting timetable: " +:+ e);;
                  return_ (Text ("Error exporting timetable: " +:+ e) 500)
              | None =>
                  return_ (Text ("Timetable exported successfully to " +:+
                                 excel_filename +:+ "!") 200)
              end
          end
      end
  end.

(** ** The model and the rows the generator produces, in closed form *)

(** The (class, period) pairs in the order the loops visit them; the
    variable of the [k]-th pair has index [k]. *)
Definition grid_slots : list (string * Z) :=
  concat ((λ class_name, pair class_name <$> periods) <$> classes).

Definition var_label (sl : string * Z) : string :=
  "c" +:+ sl.1 +:+ "_p" +:+ Py.str sl.2.

Definition var_dict : gmap (string * Z) nat :=
  list_to_map (zip grid_slots (seq 0 (length grid_slots))).

Definition var_events (lo hi : Z) : list Event :=
  (λ sl, EvNewIntVar lo hi (var_label sl)) <$> grid_slots.

Definition period_constraints : list (list nat) :=
  (λ p, (λ c, c * 5 + p)%nat <$> seq 0 4) <$> seq 0 5.

Definition class_constraints : list (list nat) :=
  (λ c, (λ p, c * 5 + p)%nat <$> seq 0 5) <$> seq 0 4.

Definition timetable_model (lo hi : Z) (cs : list (list nat)) : Cp.CpModel :=
  {| Cp.variables := (λ sl, Cp.mkIntVar lo hi (var_label sl)) <$> grid_slots;
     Cp.constraints := cs |}.

(** The rows written for the assignment [Value]. *)
Definition new_entries (teachers_map : gmap Z string) (Value : nat → Z) : list Entry :=
  (λ '(sl, var), mkEntry sl.1 sl.2 (name_of teachers_map (Value var)))
    <$> zip grid_slots (seq 0 (length grid_slots)).

(** The rows that spell out a returned grid. *)
Definition grid_entries (grid : gmap string (list string)) : list Entry :=
  concat ((λ class_name,
    (λ period, mkEntry class_name period
       (default "" (grid !! class_name ≫= λ column, column !! Z.to_nat (period - 1))))
    <$> periods) <$> classes).

Definition is_write (e : Event) : bool :=
  match e with
  | EvExecute InsertTeacher | EvExecute DeleteTeacher
  | EvExecute DeleteTimetable | EvExecute InsertTimetable
  | EvCommit | EvToExcel _ => true
  | _ => false
  end.

Definition is_model_event (e : Event) : bool :=
  match e with
  | EvCpModel | EvNewIntVar _ _ _ | EvAddAllDifferent _ | EvSolve => true
  | _ => false
  end.

(** The grid returned for the assignment [Value]. *)
Definition new_grid (teachers_map : gmap Z string) (Value : nat → Z)
  : gmap string (list string) :=
  list_to_map ((λ '(class_name, c),
      (class_name, (λ p, name_of teachers_map (Value (c * 5 + p)%nat)) <$> seq 0 5))
    <$> zip classes (seq 0 4)).

Definition save_events : list Event :=
  [EvExecute DeleteTimetable; EvCommit] ++
  replicate 20 (EvExecute InsertTimetable) ++ [EvCommit].

Definition with_timetable (w : World) (tt : list Entry) : World :=
  {| w_db := {| users := users (w_db w); teachers := teachers (w_db w);
                teachers_seq := teachers_seq (w_db w); timetable := tt |};
     w_session := w_session w; w_xlsx := w_xlsx w |}.

(** The steps of the save phase, in the order they are taken; the [k]-th
    step logs the [k]-th event of [save_events]. *)
Definition save_steps : list SaveStep :=
  [DeleteAll; CommitDelete] ++ ((λ sl, InsertRow sl.1 sl.2) <$> grid_slots)
  ++ [CommitRows].

(** The first step that raises: its position and its error. *)
Fixpoint first_error (err : SaveStep → option string) (steps : list SaveStep)
  : option (nat * string) :=
  match steps with
  | [] => None
  | step :: rest =>
      match err step with
      | Some e => Some (0%nat, e)
      | None => prod_map S id <$> first_error err rest
      end
  end.

(** [generate_timetable_process] without its loops: the answer, the world
    and the events of a request, by cases on what the handler tests.  When
    a step of the save phase raises, the table is as it was if the [DELETE]
    is not committed yet (steps 0 and 1), and empty afterwards. *)
Definition generate_outcome (env : Env) (w : World) : Response * World * list Event :=
  match w_session w with
  | None => (JsonError "Unauthorized" 401, w, [])
  | Some _ =>
  match connect_error env 0 with
  | Some e => (JsonError "Database connection failed." 500, w,
               [EvPrint ("Database connection error: " +:+ e)])
  | None =>
  let roster := teachers (w_db w) in
  let ids := t_id <$> roster in
  match Py.min ids, Py.max ids with
  | Some lo, Some hi =>
      let log := [EvExecute SelectTeachers; EvCpModel] ++ var_events lo hi in
      if decide (Py.len_set ids < 4)%nat then
        (JsonError per_period_message 400, w, log)
      else
      let log := log ++ (EvAddAllDifferent <$> period_constraints) in
      if decide (Py.len_set ids < 5)%nat then
        (JsonError (per_class_message "MCA I") 400, w, log)
      else
      let log := log ++ (EvAddAllDifferent <$> class_constraints) ++ [EvSolve] in
      let model := timetable_model lo hi (period_constraints ++ class_constraints) in
      let status := (solver env model).1 in
      let Value := (solver env model).2 in
      if (status =? Cp.OPTIMAL) || (status =? Cp.FEASIBLE) then
        match connect_error env 1 with
        | Some e => (JsonError "Database connection failed for saving." 500, w,
                     log ++ [EvPrint ("Database connection error: " +:+ e)])
        | None =>
            match first_error (save_error env) save_steps with
            | Some (k, e) =>
                (Crash e,
                 if decide (k < 2)%nat then w else with_timetable w [],
                 log ++ take (S k) save_events)
            | None =>
                (JsonTimetable (new_grid (teachers_map_of roster) Value)
                   "Timetable generated successfully!",
                 with_timetable w (new_entries (teachers_map_of roster) Value),
                 log ++ save_events)
            end
        end
      else (JsonError (failure_message status) 500, w, log)
  | _, _ => (JsonError no_teachers_message 400, w, [EvExecute SelectTeachers])
  end
  end
  end.

(** ** The viewer's loop in closed form *)

Definition slot_ok (row : Entry) : bool := (1 <=? slot row) && (slot row <=? 5).

(** The grid after one fetched row. *)
Definition placed (data : gmap string (list (option string))) (row : Entry)
  : gmap string (list (option string)) :=
  let cells := default (replicate 5 None) (data !! class_name row) in
  <[class_name row :=
      if slot_ok row
      then <[Z.to_nat (slot row - 1) := Some (teacher_name row)]> cells
      else cells]> data.

(** The warnings printed for the fetched rows, in order. *)
Definition slot_warnings (fetched : list Entry) : list Event :=
  (λ row, EvPrint (slot_warning row)) <$> filter (λ row, slot_ok row = false) fetched.

(** Every class of the grid has its five cells. *)
Definition five_cells (data : gmap string (list (option string))) : Prop :=
  ∀ c cells, data !! c = Some cells → length cells = 5%nat.

(** The [UNIQUE(class_name, slot)] constraint of the table. *)
Definition unique_slots (tt : list Entry) : Prop :=
  NoDup ((λ e, (class_name e, slot e)) <$> tt).

(** ** Sample data *)

Definition env0 (solve : Cp.CpModel → Z * (nat → Z)) : Env :=
  {| check_password_hash := λ pwhash password, String.eqb pwhash ("hash:" +:+ password);
     connect_error := λ _, None;
     execute_error := None;
     solver := solve;
     excel_error := None;
     save_error := λ _, None |}.

Definition roster5 : list Teacher :=
  [mkTeacher 1 "Asha" "Maths"; mkTeacher 2 "Binu" "Physics";
   mkTeacher 3 "Chitra" "Chemistry"; mkTeacher 4 "Dev" "Biology";
   mkTeacher 5 "Esha" "English"].

(** The roster after "Esha" (id 5) was deleted and "Farid" added: the
    [AUTOINCREMENT] counter does not hand out 5 again. *)
Definition roster_gap : list Teacher :=
  [mkTeacher 1 "Asha" "Maths"; mkTeacher 2 "Binu" "Physics";
   mkTeacher 3 "Chitra" "Chemistry"; mkTeacher 4 "Dev" "Biology";
   mkTeacher 6 "Farid" "History"].

(** The same, the newcomer bearing the name the handler makes up for id 5. *)
Definition roster_clash : list Teacher :=
  [mkTeacher 1 "Asha" "Maths"; mkTeacher 2 "Binu" "Physics";
   mkTeacher 3 "Chitra" "Chemistry"; mkTeacher 4 "Dev" "Biology";
   mkTeacher 6 "Unknown Teacher ID: 5" "History"].

Definition db_of (roster : list Teacher) (seq : Z) (tt : list Entry) : Database :=
  {| users := [mkUser "admin" "hash:admin"]; teachers := roster;
     teachers_seq := seq; timetable := tt |}.

Definition world_of (db : Database) : World :=
  {| w_db := db; w_session := Some "admin"; w_xlsx := None |}.

(** A cyclic assignment: variable [5 * c + p] (class [c], period index [p])
    takes the value [base + (c + p + shift) mod n]. *)
Definition cyclic (base n shift : Z) (var : nat) : Z :=
  base + (Z.of_nat var `div` 5 + Z.of_nat var `mod` 5 + shift) `mod` n.

(** A solver oracle that is sound by construction: it reports [OPTIMAL]
    only when [candidate] solves the model it is given, and gives up with
    [UNKNOWN] otherwise. *)
Definition solve_checked (candidate : nat → Z) (model : Cp.CpModel) : Z * (nat → Z) :=
  if bool_decide (Cp.solution candidate model) then (Cp.OPTIMAL, candidate)
  else (Cp.UNKNOWN, candidate).

(** U+00A0, the no-break space. *)
Definition nbsp : string := String.string_of_list_ascii (Py.utf8 0xA0).

Definition roster1 : list Teacher := [mkTeacher 1 "Asha" "Maths"].

(** A stored schedule from an earlier run, with a stray row. *)
Definition old_table : list Entry :=
  [mkEntry "MCA I" 1 "Zed"; mkEntry "MCA I" 2 "Yan"; mkEntry "BCA" 9 "Zed"].

(** Stored rows in no particular order, two of them out of range. *)
Definition sample_table : list Entry :=
  [mkEntry "MSC I" 2 "Binu"; mkEntry "MCA I" 7 "Dev"; mkEntry "MCA I" 1 "Asha";
   mkEntry "MSC I" 0 "Esha"; mkEntry "MCA I" 5 "Chitra"].

(** ** Logout *)


(** ** Database initialisation *)

(** [INSERT INTO users (username, password) VALUES (?, ?)] into a table
    without a row of that name. *)
Definition insert_user (db : Database) (username pwhash : string) : Database :=
  {| users := users db ++ [mkUser username pwhash]; teachers := teachers db;
     teachers_seq := teachers_seq db; timetable := timetable db |}.

(** [init_db()]: the three [CREATE TABLE IF NOT EXISTS] leave existing
    tables alone (a new database file is a store whose tables are empty);
    the default administrator is added only to an empty [users] table.
    [generate_password_hash] is werkzeug's.  The function answers nothing:
    its result is the world and what it printed and committed (its
    statements are not among the logged ones). *)
Definition init_db (env : Env) (generate_password_hash : string → string) (w : World)
  : World * list Event :=
  match connect_error env 0 with
  | Some e =>
      (w, [EvPrint ("Database connection error: " +:+ e);
           EvPrint "Failed to initialize database: No connection."])
  | None =>
      let conn := w_db w in
      if bool_decide (length (users conn) = 0%nat) then
        let hashed_password := generate_password_hash "admin" in
        let conn := insert_user conn "admin" hashed_password in
        (mkWorld conn (w_session w) (w_xlsx w),
         [EvCommit; EvCommit;
          EvPrint "Default admin user created: username='admin', password='admin'"])
      else (w, [EvCommit])
  end.

(** ** The stored roster *)

(** What the schema and the add form guarantee of every stored teacher:
    ids and names are unique, names and subjects are trimmed and not
    empty. *)
Definition trimmed (s : string) : Prop := s ≠ "" ∧ Py.strip s = s.

Definition roster_ok (roster : list Teacher) : Prop :=
  NoDup (t_id <$> roster) ∧ NoDup (t_name <$> roster)
  ∧ Forall (λ t, trimmed (t_name t) ∧ trimmed (t_subject t)) roster.

(** The requests of the add and of the delete form. *)
Definition add_request (name subject : string) : Request :=
  mkRequest POST (<["name" := name]> {["subject" := subject]}).

Definition delete_request (delete_name : string) : Request :=
  mkRequest POST {["delete_name" := delete_name]}.

Definition login_request (username password : string) : Request :=
  mkRequest POST (<["username" := username]> {["password" := password]}).

(** A hash function that agrees with the check of [env0], for examples. *)
Definition hash0 (password : string) : string := "hash:" +:+ password.

Definition empty_db : Database :=
  {| users := []; teachers := []; teachers_seq := 0; timetable := [] |}.

(** Neighbours of a list are in the order [le]. *)
Fixpoint ordered {A} (le : A → A → bool) (l : list A) : Prop :=
  match l with
  | x :: (y :: _) as rest => le x y = true ∧ ordered le rest
  | _ => True
  end.

(** * Theorems *)

(** ** Running handlers *)

Lemma bind_run {A B} (m : Handler A) (k : A → Handler B) w :
  (m ≫= k) w =
  match m w with
  | (Next a, w', log) =>
      match k a w' with
      | (o, w'', log') => (o, w'', log ++ log')
      end
  | (Return r, w', log) => (Return r, w', log)
  end.
Proof. reflexivity. Qed.


Lemma min_max_cons (x : Z) (l : list Z) :
  ∃ lo hi, Py.min (x :: l) = Some lo ∧ Py.max (x :: l) = Some hi.
Proof. cbn. eauto. Qed.

(** ** The generator, phase by phase *)

Section generator_phases.
Context (ids : list Z) (lo hi : Z) (w : World).

Lemma create_variables_run :
  Py.min ids = Some lo → Py.max ids = Some hi →
  create_variables ids Cp.empty w
  = (Next (timetable_model lo hi [], var_dict), w, var_events lo hi).
Proof.
  intros Hlo Hhi. unfold create_variables, value_of_min, value_of_max.
  rewrite Hlo, Hhi.
  (* both sides are closed up to [lo], [hi] and [w]: compared by evaluation *)
  vm_cast_no_check
    (@eq_refl _ (@Next (Cp.CpModel * gmap (string * Z) nat)
                   (timetable_model lo hi [], var_dict), w, var_events lo hi)).
Qed.

Lemma add_period_constraints_run :
  ¬ (Py.len_set ids < 4)%nat →
  add_period_constraints ids var_dict (timetable_model lo hi []) w
  = (Next (timetable_model lo hi period_constraints), w,
     EvAddAllDifferent <$> period_constraints).
Proof.
  intros Hn. unfold add_period_constraints.
  rewrite bool_decide_true by (cbn; lia).
  vm_compute. reflexivity.
Qed.

Lemma add_period_constraints_reject :
  (Py.len_set ids < 4)%nat →
  add_period_constraints ids var_dict (timetable_model lo hi []) w
  = (Return (JsonError per_period_message 400), w, []).
Proof.
  intros Hn. unfold add_period_constraints.
  rewrite bool_decide_false by (cbn; lia).
  vm_compute. reflexivity.
Qed.

Lemma add_class_constraints_run :
  ¬ (Py.len_set ids < 5)%nat →
  add_class_constraints ids var_dict (timetable_model lo hi period_constraints) w
  = (Next (timetable_model lo hi (period_constraints ++ class_constraints)), w,
     EvAddAllDifferent <$> class_constraints).
Proof.
  intros Hn. unfold add_class_constraints.
  rewrite bool_decide_true by (cbn; lia).
  vm_compute. reflexivity.
Qed.

Lemma add_class_constraints_reject :
  (Py.len_set ids < 5)%nat →
  add_class_constraints ids var_dict (timetable_model lo hi period_constraints) w
  = (Return (JsonError (per_class_message "MCA I") 400), w, []).
Proof.
  intros Hn. unfold add_class_constraints.
  rewrite bool_decide_false by (cbn; lia).
  vm_compute. reflexivity.
Qed.

End generator_phases.

(** The save phase, by the first of its steps that raises. *)
Ltac step s :=
  match goal with
  | err : SaveStep → option string |- _ =>
      destruct (err s) as [?|]; [vm_compute; reflexivity|]
  end.

Lemma save_timetable_run env tmap Value w :
  connect_error env 1 = None →
  save_timetable env tmap var_dict Value w
  = match first_error (save_error env) save_steps with
    | Some (k, e) =>
        (Return (Crash e),
         if decide (k < 2)%nat then w else with_timetable w [],
         take (S k) save_events)
    | None =>
        (Return (JsonTimetable (new_grid tmap Value) "Timetable generated successfully!"),
         with_timetable w (new_entries tmap Value), save_events)
    end.
Proof.
  intros Hc. unfold save_timetable, connect_db. rewrite Hc.
  destruct w as [[us ts sq tt] se x].
  unfold new_grid, new_entries, execute_or_raise, commit_or_raise.
  generalize (name_of tmap). intros nm.
  generalize (save_error env). intros err.
  (* the steps are laid out on both sides, then taken one after the other *)
  cbv beta iota zeta delta [for_each classes periods].
  cbv beta iota zeta delta [save_steps first_error grid_slots fmap list_fmap concat
    app fst snd classes periods].
  step DeleteAll.
  step CommitDelete.
  step (InsertRow "MCA I" 1). step (InsertRow "MCA I" 2). step (InsertRow "MCA I" 3).
  step (InsertRow "MCA I" 4). step (InsertRow "MCA I" 5).
  step (InsertRow "MCA II" 1). step (InsertRow "MCA II" 2). step (InsertRow "MCA II" 3).
  step (InsertRow "MCA II" 4). step (InsertRow "MCA II" 5).
  step (InsertRow "MSC I" 1). step (InsertRow "MSC I" 2). step (InsertRow "MSC I" 3).
  step (InsertRow "MSC I" 4). step (InsertRow "MSC I" 5).
  step (InsertRow "MSC II" 1). step (InsertRow "MSC II" 2). step (InsertRow "MSC II" 3).
  step (InsertRow "MSC II" 4). step (InsertRow "MSC II" 5).
  step CommitRows.
  vm_compute. reflexivity.
Qed.

Lemma save_timetable_unreachable env tmap Value w e :
  connect_error env 1 = Some e →
  save_timetable env tmap var_dict Value w
  = (Return (JsonError "Database connection failed for saving." 500), w,
     [EvPrint ("Database connection error: " +:+ e)]).
Proof.
  intros Hc. unfold save_timetable, connect_db. rewrite Hc. reflexivity.
Qed.

(** The handler computes what its loop-free form says. *)
Lemma generate_run env w :
  run (generate_timetable_process env) w = generate_outcome env w.
Proof.
  unfold run, generate_timetable_process, generate_outcome.
  rewrite bind_run. unfold session_get at 1.
  destruct (w_session w) as [u|]; [|reflexivity].
  rewrite bind_run. unfold connect_db at 1.
  destruct (connect_error env 0) as [e|] eqn:Hc; [reflexivity|].
  rewrite bind_run. unfold committed at 1. cbv beta iota.
  unfold mret at 1, handler_ret at 1. cbv beta iota.
  rewrite bind_run. unfold execute at 1, emit at 1. unfold Sql.select_teachers.
  destruct (teachers (w_db w)) as [|t ts]; [reflexivity|].
  set (ids := t_id <$> t :: ts).
  destruct (min_max_cons (t_id t) (t_id <$> ts)) as (lo & hi & Hlo & Hhi).
  change (t_id t :: (t_id <$> ts)) with ids in Hlo, Hhi. rewrite Hlo, Hhi.
  rewrite bind_run. unfold emit at 1.
  rewrite bind_run, (create_variables_run ids lo hi) by done.
  rewrite bind_run.
  destruct (decide (Py.len_set ids < 4)%nat) as [H4|H4].
  { rewrite add_period_constraints_reject by done. reflexivity. }
  rewrite add_period_constraints_run by done.
  rewrite bind_run.
  destruct (decide (Py.len_set ids < 5)%nat) as [H5|H5].
  { rewrite add_class_constraints_reject by done. reflexivity. }
  rewrite add_class_constraints_run by done.
  rewrite bind_run. unfold Solve at 1. rewrite bind_run. unfold emit at 1.
  cbv beta iota. unfold mret at 1, handler_ret at 1.
  destruct (solver env _) as [status Value].
  cbn [fst snd].
  destruct ((status =? Cp.OPTIMAL) || (status =? Cp.FEASIBLE)).
  - destruct (connect_error env 1) as [e|] eqn:Hc1.
    + rewrite (save_timetable_unreachable _ _ _ _ e) by done. reflexivity.
    + rewrite save_timetable_run by done.
      destruct (first_error _ _) as [[k err]|]; reflexivity.
  - reflexivity.
Qed.

Lemma grid_entries_new_grid tmap Value :
  grid_entries (new_grid tmap Value) = new_entries tmap Value.
Proof.
  unfold new_grid, new_entries, grid_entries.
  generalize (name_of tmap). intros nm. vm_compute. reflexivity.
Qed.

Lemma new_entries_slots tmap Value :
  (λ e, (class_name e, slot e)) <$> new_entries tmap Value = grid_slots.
Proof. reflexivity. Qed.

Lemma var_events_no_write lo hi : Forall (λ e, is_write e = false) (var_events lo hi).
Proof. unfold var_events. apply Forall_fmap, Forall_forall. done. Qed.

Lemma var_events_no_solve lo hi : EvSolve ∉ var_events lo hi.
Proof.
  unfold var_events. intros (sl & Heq & _)%list_elem_of_fmap. discriminate.
Qed.

Lemma constraint_events_no_write (cs : list (list nat)) :
  Forall (λ e, is_write e = false) (EvAddAllDifferent <$> cs).
Proof. apply Forall_fmap, Forall_forall. done. Qed.

Lemma constraint_events_no_solve (cs : list (list nat)) : EvSolve ∉ EvAddAllDifferent <$> cs.
Proof. intros (c & Heq & _)%list_elem_of_fmap. discriminate. Qed.

(** ** The generator: rejections *)

Lemma failure_message_cases status :
  failure_message status ∈
    [infeasible_message; invalid_message; unknown_message; unexpected_message].
Proof.
  unfold failure_message.
  repeat case_match; set_solver.
Qed.

(** C10: with an empty roster the generator answers 400 with its
    no-teachers message, which no other answer of the endpoint uses, having
    done nothing but fetch the roster: no model and no variable exists yet,
    and [min] and [max], which raise on an empty list, are not called. *)
Theorem generate_empty_roster env w u :
  w_session w = Some u → connect_error env 0 = None → teachers (w_db w) = [] →
  run (generate_timetable_process env) w
    = (JsonError no_teachers_message 400, w, [EvExecute SelectTeachers])
  ∧ Py.min [] = None ∧ Py.max [] = None
  ∧ ∀ class_name status,
      no_teachers_message ∉
        [per_period_message; per_class_message class_name; failure_message status;
         "Unauthorized"; "Database connection failed.";
         "Database connection failed for saving."].
Proof.
  intros Hs Hc Ht. rewrite generate_run. unfold generate_outcome.
  rewrite Hs, Hc, Ht. split; [reflexivity|]. do 2 (split; [reflexivity|]).
  intros c status Hin.
  pose proof (failure_message_cases status) as Hf.
  rewrite !elem_of_cons, elem_of_nil in Hin.
  rewrite !elem_of_cons, elem_of_nil in Hf.
  destruct Hin as [H|[H|[H|[H|[H|[H|[]]]]]]]; try discriminate H.
  destruct Hf as [Hf|[Hf|[Hf|[Hf|[]]]]]; rewrite Hf in H; discriminate H.
Qed.

(** A logged-in request over a store without teachers. *)
Lemma generate_empty_roster_witness :
  run (generate_timetable_process (env0 (solve_checked (cyclic 1 5 0))))
      (world_of (db_of [] 0 []))
  = (JsonError no_teachers_message 400, world_of (db_of [] 0 []),
     [EvExecute SelectTeachers]).
Proof.
  apply (generate_empty_roster (env0 (solve_checked (cyclic 1 5 0)))
           (world_of (db_of [] 0 [])) "admin"); reflexivity.
Defined.

(** C3, as stated, fails: with a single teacher the request is rejected,
    but only after the model and its variables have been created. *)
Lemma rejects_after_building_model :
  let env := env0 (solve_checked (cyclic 1 5 0)) in
  let w := world_of (db_of roster1 1 []) in
  (Py.len_set (t_id <$> teachers (w_db w)) < 4)%nat ∧
  ∃ log, run (generate_timetable_process env) w
         = (JsonError per_period_message 400, w, log)
       ∧ ¬ Forall (λ e, is_model_event e = false) log.
Proof.
  cbv zeta. split; [vm_compute; lia|].
  eexists. split; [vm_compute; reflexivity|].
  intros H. apply Forall_cons in H as [_ H]. apply Forall_cons in H as [H _].
  discriminate H.
Qed.

(** C3, amended: a roster with fewer than 5 distinct teachers is rejected
    with status 400, the solver is never called, nothing is written and
    the store is left as it was.  An empty roster is rejected before any
    model exists; otherwise the model and its 20 variables (with fewer
    than 4 teachers), and also the five per-period constraints (with
    exactly 4), have been created by the time the request is rejected. *)
Theorem generate_too_few_teachers env w u :
  w_session w = Some u → connect_error env 0 = None →
  let ids := t_id <$> teachers (w_db w) in
  (Py.len_set ids < 5)%nat →
  ∃ msg log,
    run (generate_timetable_process env) w = (JsonError msg 400, w, log)
    ∧ (EvSolve ∉ log)
    ∧ Forall (λ e, is_write e = false) log
    ∧ ((ids = [] ∧ msg = no_teachers_message ∧ log = [EvExecute SelectTeachers])
       ∨ (∃ lo hi, Py.min ids = Some lo ∧ Py.max ids = Some hi
          ∧ (((Py.len_set ids < 4)%nat ∧ msg = per_period_message
              ∧ log = [EvExecute SelectTeachers; EvCpModel] ++ var_events lo hi)
             ∨ (Py.len_set ids = 4%nat ∧ msg = per_class_message "MCA I"
                ∧ log = [EvExecute SelectTeachers; EvCpModel] ++ var_events lo hi
                        ++ (EvAddAllDifferent <$> period_constraints))))).
Proof.
  intros Hs Hc ids Hn. rewrite generate_run. unfold generate_outcome.
  rewrite Hs, Hc. fold ids.
  destruct ids as [|x l] eqn:Hids.
  { eexists _, _. split; [reflexivity|]. split; [|split].
    - rewrite not_elem_of_cons. split; [discriminate|apply not_elem_of_nil].
    - repeat constructor.
    - left. auto. }
  destruct (min_max_cons x l) as (lo & hi & Hlo & Hhi). rewrite Hlo, Hhi.
  pose proof (var_events_no_solve lo hi) as Hsolve.
  pose proof (var_events_no_write lo hi) as Hwrite.
  destruct (decide (Py.len_set (x :: l) < 4)%nat) as [H4|H4].
  - eexists _, _. split; [reflexivity|]. split; [|split].
    + rewrite not_elem_of_app, !not_elem_of_cons.
      repeat split; try discriminate; [apply not_elem_of_nil|exact Hsolve].
    + apply Forall_app. split; [repeat constructor|exact Hwrite].
    + right. exists lo, hi. split; [done|]. split; [done|]. left. done.
  - rewrite decide_True by exact Hn.
    eexists _, _. split; [reflexivity|]. split; [|split].
    + rewrite !not_elem_of_app, !not_elem_of_cons.
      repeat split; try discriminate;
        [apply not_elem_of_nil|exact Hsolve|apply constraint_events_no_solve].
    + rewrite !Forall_app. repeat split;
        [repeat constructor|exact Hwrite|apply constraint_events_no_write].
    + right. exists lo, hi. split; [done|]. split; [done|]. right.
      split; [lia|]. split; [done|]. by rewrite <- app_assoc.
Qed.

(** A logged-in request over a roster of one teacher. *)
Lemma generate_too_few_teachers_witness :
  ∃ msg log,
    run (generate_timetable_process (env0 (solve_checked (cyclic 1 5 0))))
        (world_of (db_of roster1 1 []))
    = (JsonError msg 400, world_of (db_of roster1 1 []), log)
    ∧ (EvSolve ∉ log).
Proof.
  destruct (generate_too_few_teachers (env0 (solve_checked (cyclic 1 5 0)))
              (world_of (db_of roster1 1 [])) "admin")
    as (msg & log & Hrun & Hsolve & _).
  - reflexivity.
  - reflexivity.
  - vm_compute. lia.
  - exists msg, log. split; assumption.
Defined.

(** ** The generator: solver failure and success *)

Lemma failure_messages_distinct :
  NoDup [infeasible_message; invalid_message; unknown_message; unexpected_message].
Proof. apply (bool_decide_unpack _). vm_compute. exact I. Qed.

(** C5: when the solver reports neither [OPTIMAL] nor [FEASIBLE], the
    answer is status 500 with the message of the status (infeasible,
    invalid model, unknown, or the catch-all), four different texts; the
    store is untouched and no delete, insert or commit is executed. *)
Theorem generate_solver_failure env w u lo hi :
  w_session w = Some u → connect_error env 0 = None →
  let ids := t_id <$> teachers (w_db w) in
  Py.min ids = Some lo → Py.max ids = Some hi → (5 ≤ Py.len_set ids)%nat →
  let status :=
    (solver env (timetable_model lo hi (period_constraints ++ class_constraints))).1 in
  status ≠ Cp.OPTIMAL → status ≠ Cp.FEASIBLE →
  ∃ msg log,
    run (generate_timetable_process env) w = (JsonError msg 500, w, log)
    ∧ ¬ (200 ≤ http_status (JsonError msg 500) < 300)
    ∧ Forall (λ e, is_write e = false) log
    ∧ (status = Cp.INFEASIBLE → msg = infeasible_message)
    ∧ (status = Cp.MODEL_INVALID → msg = invalid_message)
    ∧ (status = Cp.UNKNOWN → msg = unknown_message)
    ∧ (status ∉ [Cp.INFEASIBLE; Cp.MODEL_INVALID; Cp.UNKNOWN] →
       msg = unexpected_message)
    ∧ NoDup [infeasible_message; invalid_message; unknown_message;
             unexpected_message].
Proof.
  intros Hs Hc ids Hlo Hhi Hn status Hopt Hfeas.
  rewrite generate_run. unfold generate_outcome.
  rewrite Hs, Hc. fold ids. rewrite Hlo, Hhi.
  rewrite !decide_False by lia. fold status.
  apply Z.eqb_neq in Hopt, Hfeas. rewrite Hopt, Hfeas. cbn [orb].
  eexists _, _. split; [reflexivity|]. split; [cbn; lia|]. split.
  { rewrite !Forall_app. repeat split;
      [repeat constructor|apply var_events_no_write
      |apply constraint_events_no_write|apply constraint_events_no_write
      |repeat constructor]. }
  unfold failure_message. repeat split.
  - intros ->. reflexivity.
  - intros ->. reflexivity.
  - intros ->. reflexivity.
  - rewrite !not_elem_of_cons. intros (H1 & H2 & H3 & _).
    apply Z.eqb_neq in H1, H2, H3. by rewrite H1, H2, H3.
  - apply failure_messages_distinct.
Qed.

(** Five teachers and a solver that gives up with [UNKNOWN]. *)
Lemma generate_solver_failure_witness :
  ∃ msg log,
    run (generate_timetable_process (env0 (solve_checked (λ _, 1))))
        (world_of (db_of roster5 5 []))
    = (JsonError msg 500, world_of (db_of roster5 5 []), log)
    ∧ Forall (λ e, is_write e = false) log.
Proof.
  destruct (generate_solver_failure (env0 (solve_checked (λ _, 1)))
              (world_of (db_of roster5 5 [])) "admin" 1 5)
    as (msg & log & Hrun & _ & Hlog & _).
  - reflexivity.
  - reflexivity.
  - reflexivity.
  - reflexivity.
  - vm_compute. lia.
  - vm_compute. discriminate.
  - vm_compute. discriminate.
  - exists msg, log. split; assumption.
Defined.

(** A successful answer comes with exactly the rows of its grid stored. *)
Lemma generate_success env w g msg w' log :
  run (generate_timetable_process env) w = (JsonTimetable g msg, w', log) →
  ∃ Value log0,
    g = new_grid (teachers_map_of (teachers (w_db w))) Value
    ∧ w' = with_timetable w (grid_entries g)
    ∧ log = log0 ++ save_events
    ∧ Forall (λ e, is_write e = false) log0.
Proof.
  rewrite generate_run. unfold generate_outcome. intros H.
  destruct (w_session w); [|discriminate H].
  destruct (connect_error env 0); [discriminate H|].
  destruct (Py.min _) as [lo|]; [|discriminate H].
  destruct (Py.max _) as [hi|]; [|discriminate H].
  destruct (decide _); [discriminate H|].
  destruct (decide _); [discriminate H|].
  destruct (_ || _); [|discriminate H].
  destruct (connect_error env 1); [discriminate H|].
  destruct (first_error _ _) as [[k err]|]; [discriminate H|].
  pose proof (f_equal (λ x, x.1.1) H) as Hg.
  pose proof (f_equal (λ x, x.1.2) H) as Hw.
  pose proof (f_equal snd H) as Hl.
  cbn [fst snd] in Hg, Hw, Hl. injection Hg as Hg _.
  eexists _, _. split; [symmetry; exact Hg|].
  rewrite <- Hg, grid_entries_new_grid. split; [symmetry; exact Hw|].
  split; [symmetry; exact Hl|].
  rewrite !Forall_app. repeat split;
    [repeat constructor|apply var_events_no_write
    |apply constraint_events_no_write|apply constraint_events_no_write
    |repeat constructor].
Qed.

Lemma grid_entries_slots g :
  (λ e, (class_name e, slot e)) <$> grid_entries g = grid_slots.
Proof. reflexivity. Qed.

(** C4: a successful generation deletes every stored row and then inserts
    its own, whatever was stored before; so after two successful
    generations in a row the table holds exactly the 20 rows of the second
    answer, one per class and period. *)
Theorem regeneration_replaces_schedule env1 env2 w g1 msg1 w1 log1 g2 msg2 w2 log2 :
  run (generate_timetable_process env1) w = (JsonTimetable g1 msg1, w1, log1) →
  run (generate_timetable_process env2) w1 = (JsonTimetable g2 msg2, w2, log2) →
  timetable (w_db w1) = grid_entries g1
  ∧ timetable (w_db w2) = grid_entries g2
  ∧ length (timetable (w_db w2)) = 20%nat
  ∧ (λ e, (class_name e, slot e)) <$> timetable (w_db w2) = grid_slots
  ∧ ∃ log0, log2 = log0 ++ [EvExecute DeleteTimetable; EvCommit]
                    ++ replicate 20 (EvExecute InsertTimetable) ++ [EvCommit]
      ∧ Forall (λ e, is_write e = false) log0.
Proof.
  intros (V1 & l1 & _ & -> & _)%generate_success
         (V2 & l2 & _ & -> & -> & Hl2)%generate_success.
  cbn [with_timetable w_db timetable].
  split; [reflexivity|]. split; [reflexivity|]. split; [reflexivity|].
  split; [apply grid_entries_slots|]. exists l2. split; [reflexivity|exact Hl2].
Qed.

(** Two successful generations in a row, over a store holding other rows. *)
Lemma regeneration_replaces_schedule_witness :
  let env1 := env0 (solve_checked (cyclic 1 5 0)) in
  let env2 := env0 (solve_checked (cyclic 1 5 2)) in
  let r1 := run (generate_timetable_process env1)
                (world_of (db_of roster5 5 old_table)) in
  let r2 := run (generate_timetable_process env2) r1.1.2 in
  let g2 := new_grid (teachers_map_of roster5) (cyclic 1 5 2) in
  r2.1.1 = JsonTimetable g2 "Timetable generated successfully!"
  ∧ timetable (w_db r2.1.2) = grid_entries g2
  ∧ length (timetable (w_db r2.1.2)) = 20%nat.
Proof.
  intros env1 env2 r1 r2 g2.
  assert (r1 = (JsonTimetable (new_grid (teachers_map_of roster5) (cyclic 1 5 0))
                  "Timetable generated successfully!", r1.1.2, r1.2)) as H1
    by (vm_compute; reflexivity).
  assert (r2 = (JsonTimetable g2 "Timetable generated successfully!",
                r2.1.2, r2.2)) as H2
    by (vm_compute; reflexivity).
  destruct (regeneration_replaces_schedule env1 env2 _ _ _ _ _ _ _ _ _ H1 H2)
    as (_ & Ht & Hlen & _).
  split; [exact (f_equal (λ x, x.1.1) H2)|]. split; [exact Ht|exact Hlen].
Defined.

(** ** The generator: the domain of the variables *)

(** The roster with a gap in its ids is what the application itself
    produces: delete the teacher with the largest id, add another. *)
Lemma roster_gap_reachable :
  let env := env0 (solve_checked (cyclic 1 6 0)) in
  let w0 := world_of (db_of roster5 5 []) in
  let w1 := (run (modify_teacher env
                    (mkRequest POST {["delete_name" := "Esha"]})) w0).1.2 in
  let w2 := (run (modify_teacher env
                    (mkRequest POST (<["name" := "Farid"]> {["subject" := "History"]}))) w1).1.2 in
  w2 = world_of (db_of roster_gap 6 []).
Proof. vm_compute. reflexivity. Qed.

(** C2 fails on the code: every variable ranges over the whole interval
    from the smallest to the largest id.  With the teachers 1, 2, 3, 4, 6
    on the roster, the 20 variables are created over 1..6; 5 is in that
    interval and is no teacher's id; the assignment that gives 5 to class
    "MCA I" in period 5 (variable 4) solves the model the handler hands to
    the solver, and the run succeeds with it. *)
Theorem domain_admits_deleted_id :
  let env := env0 (solve_checked (cyclic 1 6 0)) in
  let w := world_of (db_of roster_gap 6 []) in
  let ids := t_id <$> teachers (w_db w) in
  ∃ g w',
    run (generate_timetable_process env) w
      = (JsonTimetable g "Timetable generated successfully!", w',
         [EvExecute SelectTeachers; EvCpModel] ++ var_events 1 6
         ++ (EvAddAllDifferent <$> (period_constraints ++ class_constraints))
         ++ [EvSolve] ++ save_events)
    ∧ Py.min ids = Some 1 ∧ Py.max ids = Some 6 ∧ (5 ∉ ids)
    ∧ var_dict !! ("MCA I", 5) = Some 4%nat
    ∧ cyclic 1 6 0 4 = 5
    ∧ Cp.solution (cyclic 1 6 0)
        (timetable_model 1 6 (period_constraints ++ class_constraints)).
Proof.
  cbv zeta. eexists _, _. split; [vm_compute; reflexivity|].
  split; [reflexivity|]. split; [reflexivity|].
  split; [apply (bool_decide_unpack _); vm_compute; exact I|].
  split; [vm_compute; reflexivity|]. split; [reflexivity|].
  apply (bool_decide_unpack _). vm_compute. exact I.
Qed.

(** C1 fails on the code: the roster 1, 2, 3, 4, 6 has five distinct
    teachers and the run succeeds, yet class "MCA I" gets in period 5 the
    placeholder made up for id 5, which is nobody on the roster. *)
Theorem generation_assigns_unknown_teacher :
  let env := env0 (solve_checked (cyclic 1 6 0)) in
  let w := world_of (db_of roster_gap 6 []) in
  let roster := teachers (w_db w) in
  ∃ g w' log,
    run (generate_timetable_process env) w
      = (JsonTimetable g "Timetable generated successfully!", w', log)
    ∧ (5 ≤ Py.len_set (t_id <$> roster))%nat
    ∧ NoDup (t_id <$> roster) ∧ NoDup (t_name <$> roster)
    ∧ mkEntry "MCA I" 5 "Unknown Teacher ID: 5" ∈ timetable (w_db w')
    ∧ g !! "MCA I" = Some ["Asha"; "Binu"; "Chitra"; "Dev"; "Unknown Teacher ID: 5"]
    ∧ ("Unknown Teacher ID: 5" ∉ t_name <$> roster).
Proof.
  cbv zeta. eexists _, _, _. split; [vm_compute; reflexivity|].
  split; [vm_compute; lia|].
  split; [apply (bool_decide_unpack _); vm_compute; exact I|].
  split; [apply (bool_decide_unpack _); vm_compute; exact I|].
  split; [apply (list_elem_of_lookup_2 _ 4); reflexivity|].
  split; [vm_compute; reflexivity|].
  apply (bool_decide_unpack _). vm_compute. exact I.
Qed.

(** When a teacher happens to bear the made-up name, two classes of one
    period even get the same name stored. *)
Lemma generation_repeats_a_name :
  let env := env0 (solve_checked (cyclic 1 6 0)) in
  let w := world_of (db_of roster_clash 6 []) in
  let tt := timetable (w_db (run (generate_timetable_process env) w).1.2) in
  NoDup (t_name <$> roster_clash)
  ∧ teacher_name <$> filter (λ e, slot e = 5) tt
    = ["Unknown Teacher ID: 5"; "Unknown Teacher ID: 5"; "Asha"; "Binu"].
Proof.
  cbv zeta. split; [apply (bool_decide_unpack _); vm_compute; exact I|].
  vm_compute. reflexivity.
Qed.

(** ** The generator on a roster without gaps

    What C1 asks for does hold when every id between the smallest and the
    largest belongs to a teacher: the 20 rows then name roster teachers,
    pairwise different within a period and within a class. *)

Lemma teachers_map_lookup roster t :
  NoDup (t_id <$> roster) → t ∈ roster →
  teachers_map_of roster !! t_id t = Some (t_name t).
Proof.
  unfold teachers_map_of. induction roster as [|t' l IH] using rev_ind.
  - by intros _ ?%elem_of_nil.
  - rewrite fmap_app, foldl_snoc, elem_of_app, list_elem_of_singleton.
    intros [Hl [Hnot _]]%NoDup_app [Hin| ->]; [|apply lookup_insert_eq].
    rewrite lookup_insert_ne; [by apply IH|].
    intros Heq. apply (Hnot (t_id t)); [by apply list_elem_of_fmap_2|].
    rewrite <- Heq. left.
Qed.

Lemma name_of_roster roster z :
  NoDup (t_id <$> roster) → z ∈ t_id <$> roster →
  ∃ t, t ∈ roster ∧ t_id t = z ∧ name_of (teachers_map_of roster) z = t_name t.
Proof.
  intros Hnd (t & -> & Hin)%list_elem_of_fmap. exists t.
  unfold name_of. by rewrite teachers_map_lookup.
Qed.

Lemma name_of_inj roster z1 z2 :
  NoDup (t_id <$> roster) → NoDup (t_name <$> roster) →
  z1 ∈ t_id <$> roster → z2 ∈ t_id <$> roster →
  name_of (teachers_map_of roster) z1 = name_of (teachers_map_of roster) z2 →
  z1 = z2.
Proof.
  intros Hid Hname H1 H2.
  destruct (name_of_roster roster z1 Hid H1) as (t1 & Ht1 & <- & ->).
  destruct (name_of_roster roster z2 Hid H2) as (t2 & Ht2 & <- & ->).
  intros Heq. f_equal. clear Hid H1 H2. revert Hname Ht1 Ht2.
  induction roster as [|t l IH]; [by intros _ ?%elem_of_nil|].
  rewrite fmap_cons, NoDup_cons, !elem_of_cons.
  intros [Hnot Hname] [->|H1] [->|H2]; [done| | |by apply IH].
  - exfalso. apply Hnot. rewrite Heq. by apply list_elem_of_fmap_2.
  - exfalso. apply Hnot. rewrite <- Heq. by apply list_elem_of_fmap_2.
Qed.

Lemma solution_in_range V lo hi cs k :
  Cp.solution V (timetable_model lo hi cs) → (k < 20)%nat → lo ≤ V k ≤ hi.
Proof.
  intros [Hdom _] Hk. cbn [Cp.variables timetable_model] in Hdom.
  destruct (lookup_lt_is_Some_2 grid_slots k Hk) as [sl Hsl].
  apply (Forall_lookup_1 _ _ k (k, Cp.mkIntVar lo hi (var_label sl))) in Hdom;
    [exact Hdom|].
  by rewrite list_lookup_imap, list_lookup_fmap, Hsl.
Qed.

Lemma new_entries_teacher tmap V e :
  e ∈ new_entries tmap V →
  ∃ k, (k < 20)%nat ∧ teacher_name e = name_of tmap (V k).
Proof.
  unfold new_entries. intros ([sl k] & -> & Hin)%list_elem_of_fmap.
  exists k. split; [|reflexivity].
  apply elem_of_zip_r, elem_of_seq in Hin. cbn in Hin. lia.
Qed.

Lemma generate_success_solution env w g msg w' log :
  (∀ m, Cp.sound m (solver env m)) →
  run (generate_timetable_process env) w = (JsonTimetable g msg, w', log) →
  ∃ lo hi V,
    Py.min (t_id <$> teachers (w_db w)) = Some lo
    ∧ Py.max (t_id <$> teachers (w_db w)) = Some hi
    ∧ Cp.solution V (timetable_model lo hi (period_constraints ++ class_constraints))
    ∧ timetable (w_db w') = new_entries (teachers_map_of (teachers (w_db w))) V.
Proof.
  intros Hsound. rewrite generate_run. unfold generate_outcome. intros H.
  destruct (w_session w); [|discriminate H].
  destruct (connect_error env 0); [discriminate H|].
  destruct (Py.min _) as [lo|]; [|discriminate H].
  destruct (Py.max _) as [hi|]; [|discriminate H].
  destruct (decide _); [discriminate H|].
  destruct (decide _); [discriminate H|].
  pose proof (Hsound (timetable_model lo hi (period_constraints ++ class_constraints)))
    as Hsol.
  unfold Cp.sound in Hsol.
  destruct (_ || _) eqn:Hstatus; [|discriminate H].
  destruct (connect_error env 1); [discriminate H|].
  destruct (first_error _ _) as [[k err]|]; [discriminate H|].
  exists lo, hi, (solver env (timetable_model lo hi (period_constraints ++ class_constraints))).2.
  split; [done|]. split; [done|]. split.
  - apply Hsol. apply orb_true_iff in Hstatus as [?%Z.eqb_eq|?%Z.eqb_eq]; auto.
  - pose proof (f_equal (λ x, timetable (w_db x.1.2)) H) as Htt.
    cbn [fst snd with_timetable w_db timetable] in Htt. by symmetry.
Qed.

Section rows_by_period_and_class.
Context (nm : Z → string) (V : nat → Z).
Let tt : list Entry :=
  (λ '(sl, var), mkEntry sl.1 sl.2 (nm (V var)))
    <$> zip grid_slots (seq 0 (length grid_slots)).

Lemma rows_of_period p :
  p ∈ periods →
  ∃ c, c ∈ period_constraints
       ∧ teacher_name <$> filter (λ e, slot e = p) tt = nm <$> (V <$> c).
Proof.
  intros Hp. repeat (apply elem_of_cons in Hp as [->|Hp]);
    [..|by apply elem_of_nil in Hp].
  - eexists. split; [apply (list_elem_of_lookup_2 _ 0); reflexivity|reflexivity].
  - eexists. split; [apply (list_elem_of_lookup_2 _ 1); reflexivity|reflexivity].
  - eexists. split; [apply (list_elem_of_lookup_2 _ 2); reflexivity|reflexivity].
  - eexists. split; [apply (list_elem_of_lookup_2 _ 3); reflexivity|reflexivity].
  - eexists. split; [apply (list_elem_of_lookup_2 _ 4); reflexivity|reflexivity].
Qed.

Lemma rows_of_class c :
  c ∈ classes →
  ∃ vars, vars ∈ class_constraints
       ∧ teacher_name <$> filter (λ e, class_name e = c) tt = nm <$> (V <$> vars).
Proof.
  intros Hc. repeat (apply elem_of_cons in Hc as [->|Hc]);
    [..|by apply elem_of_nil in Hc].
  - eexists. split; [apply (list_elem_of_lookup_2 _ 0); reflexivity|reflexivity].
  - eexists. split; [apply (list_elem_of_lookup_2 _ 1); reflexivity|reflexivity].
  - eexists. split; [apply (list_elem_of_lookup_2 _ 2); reflexivity|reflexivity].
  - eexists. split; [apply (list_elem_of_lookup_2 _ 3); reflexivity|reflexivity].
Qed.

End rows_by_period_and_class.

Lemma constraint_vars_bound c k :
  c ∈ period_constraints ++ class_constraints → k ∈ c → (k < 20)%nat.
Proof.
  intros Hc Hk. revert k Hk. apply Forall_forall.
  revert c Hc. apply Forall_forall.
  apply (bool_decide_unpack _). vm_compute. exact I.
Qed.

Lemma generation_distinct_teachers env w g msg w' log :
  let roster := teachers (w_db w) in
  let ids := t_id <$> roster in
  NoDup ids → NoDup (t_name <$> roster) →
  (∀ lo hi z, Py.min ids = Some lo → Py.max ids = Some hi → lo ≤ z ≤ hi → z ∈ ids) →
  (∀ m, Cp.sound m (solver env m)) →
  run (generate_timetable_process env) w = (JsonTimetable g msg, w', log) →
  let tt := timetable (w_db w') in
  (λ e, (class_name e, slot e)) <$> tt = grid_slots
  ∧ (∀ e, e ∈ tt → teacher_name e ∈ t_name <$> roster)
  ∧ (∀ p, p ∈ periods → NoDup (teacher_name <$> filter (λ e, slot e = p) tt))
  ∧ (∀ c, c ∈ classes → NoDup (teacher_name <$> filter (λ e, class_name e = c) tt)).
Proof.
  intros roster ids Hid Hname Hgap Hsound Hrun.
  destruct (generate_success_solution _ _ _ _ _ _ Hsound Hrun)
    as (lo & hi & V & Hlo & Hhi & Hsol & Htt).
  cbv zeta. rewrite Htt. fold roster. clear Hrun Htt.
  assert (∀ k, (k < 20)%nat → V k ∈ ids) as Hids.
  { intros k Hk. apply (Hgap lo hi); [done|done|].
    by apply (solution_in_range V lo hi (period_constraints ++ class_constraints) k). }
  assert (∀ c, c ∈ period_constraints ++ class_constraints →
               NoDup (name_of (teachers_map_of roster) <$> (V <$> c))) as Hdiff.
  { intros c Hc. apply NoDup_fmap_2_strong.
    - intros z1 z2 (k1 & -> & Hk1)%list_elem_of_fmap (k2 & -> & Hk2)%list_elem_of_fmap.
      apply (name_of_inj roster); try done;
        apply Hids; by eapply constraint_vars_bound.
    - by apply (proj1 (Forall_forall _ _) (proj2 Hsol)). }
  split; [apply new_entries_slots|]. split; [|split].
  - intros e (k & Hk & ->)%new_entries_teacher.
    destruct (name_of_roster roster (V k) Hid (Hids k Hk)) as (t & Ht & _ & ->).
    by apply list_elem_of_fmap_2.
  - intros p Hp.
    destruct (rows_of_period (name_of (teachers_map_of roster)) V p Hp)
      as (c & Hc & Heq).
    unfold new_entries. rewrite Heq. apply Hdiff, elem_of_app. by left.
  - intros c Hc.
    destruct (rows_of_class (name_of (teachers_map_of roster)) V c Hc)
      as (vars & Hvars & Heq).
    unfold new_entries. rewrite Heq. apply Hdiff, elem_of_app. by right.
Qed.

Lemma solve_checked_sound candidate m :
  Cp.sound m (solver (env0 (solve_checked candidate)) m).
Proof.
  unfold Cp.sound, env0, solver, solve_checked.
  destruct (bool_decide (Cp.solution candidate m)) eqn:Hm; cbn [fst snd].
  - intros _. by apply bool_decide_eq_true in Hm.
  - intros [?|?]; discriminate.
Qed.

Lemma generation_distinct_teachers_example :
  let env := env0 (solve_checked (cyclic 1 5 0)) in
  let w := world_of (db_of roster5 5 old_table) in
  let tt := timetable (w_db (run (generate_timetable_process env) w).1.2) in
  ∀ p, p ∈ periods → NoDup (teacher_name <$> filter (λ e, slot e = p) tt).
Proof.
  intros env w tt.
  assert (run (generate_timetable_process env) w
          = (JsonTimetable (new_grid (teachers_map_of roster5) (cyclic 1 5 0))
               "Timetable generated successfully!",
             (run (generate_timetable_process env) w).1.2,
             (run (generate_timetable_process env) w).2))
    as Hrun by (vm_compute; reflexivity).
  refine (proj1 (proj2 (proj2 (generation_distinct_teachers env w _ _ _ _ _ _ _ _ Hrun)))).
  - apply (bool_decide_unpack _). vm_compute. exact I.
  - apply (bool_decide_unpack _). vm_compute. exact I.
  - intros lo hi z [= <-] [= <-] Hz.
    assert (z = 1 ∨ z = 2 ∨ z = 3 ∨ z = 4 ∨ z = 5) as Hcases by (cbn in Hz; lia).
    destruct Hcases as [->|[->|[->|[->| ->]]]];
      apply (bool_decide_unpack _); vm_compute; exact I.
  - apply solve_checked_sound.
Qed.

(** ** Login *)

Lemma select_password_unknown db username :
  username ∉ u_username <$> users db → Sql.select_password db username = None.
Proof.
  unfold Sql.select_password. intros Hnot.
  destruct (filter _ (users db)) as [|x l] eqn:Hf; [reflexivity|].
  exfalso. apply Hnot.
  assert (x ∈ filter (λ u, u_username u = username) (users db)) as Hx
    by (rewrite Hf; left).
  apply list_elem_of_filter in Hx as [<- Hx]. by apply list_elem_of_fmap_2.
Qed.

Lemma login_run_checked env req w username password :
  method req = POST → connect_error env 0 = None →
  form req !! "username" = Some username → form req !! "password" = Some password →
  username ≠ "" → password ≠ "" →
  run (login env req) w =
  match Sql.select_password (w_db w) username with
  | Some pwhash =>
      if check_password_hash env pwhash password then
        (Redirect "dashboard", mkWorld (w_db w) (Some username) (w_xlsx w),
         [EvExecute SelectPassword])
      else (LoginPage (Some "Invalid Credentials."), w, [EvExecute SelectPassword])
  | None => (LoginPage (Some "Invalid Credentials."), w, [EvExecute SelectPassword])
  end.
Proof.
  intros Hm Hc Hu Hp Hune Hpne. unfold run, login. rewrite Hm, Hu, Hp.
  apply String.eqb_neq in Hune, Hpne. unfold Py.not_str. rewrite Hune, Hpne.
  cbn [orb]. rewrite bind_run. unfold connect_db. rewrite Hc.
  cbv [mbind handler_bind committed mret handler_ret execute emit].
  destruct (Sql.select_password (w_db w) username) as [pwhash|]; [|reflexivity].
  destruct (check_password_hash env pwhash password); reflexivity.
Qed.

(** C6, as stated, fails: a request with a missing field is answered with
    a message of its own, not with the one a wrong password gets. *)
Lemma login_missing_field_is_told_apart :
  let env := env0 (solve_checked (cyclic 1 5 0)) in
  let w := mkWorld (db_of roster5 5 []) None None in
  ∃ missing wrong,
    run (login env (mkRequest POST {["username" := "admin"]})) w
      = (LoginPage (Some missing), w, [])
    ∧ run (login env (mkRequest POST
             (<["username" := "admin"]> {["password" := "guess"]}))) w
      = (LoginPage (Some wrong), w, [EvExecute SelectPassword])
    ∧ missing ≠ wrong.
Proof.
  cbv zeta. eexists _, _.
  split; [vm_compute; reflexivity|]. split; [vm_compute; reflexivity|].
  discriminate.
Qed.

(** C6, amended: an unknown username and a wrong password are answered
    with the same "Invalid Credentials." page, the session and the store
    untouched, so the answer does not tell the two apart; a missing or
    empty field is answered with "Username and password are required.";
    a password that checks against the stored hash sets [session['user']]
    to the username and redirects to the dashboard. *)
Theorem login_outcomes env req w :
  method req = POST → connect_error env 0 = None →
  (Py.not_opt (form req !! "username") || Py.not_opt (form req !! "password") = true →
   run (login env req) w
   = (LoginPage (Some "Username and password are required."), w, []))
  ∧ ∀ username password,
      form req !! "username" = Some username →
      form req !! "password" = Some password →
      username ≠ "" → password ≠ "" →
      (username ∉ u_username <$> users (w_db w) →
       run (login env req) w
       = (LoginPage (Some "Invalid Credentials."), w, [EvExecute SelectPassword]))
      ∧ (∀ pwhash,
           Sql.select_password (w_db w) username = Some pwhash →
           check_password_hash env pwhash password = false →
           run (login env req) w
           = (LoginPage (Some "Invalid Credentials."), w, [EvExecute SelectPassword]))
      ∧ (∀ pwhash,
           Sql.select_password (w_db w) username = Some pwhash →
           check_password_hash env pwhash password = true →
           run (login env req) w
           = (Redirect "dashboard", mkWorld (w_db w) (Some username) (w_xlsx w),
              [EvExecute SelectPassword])).
Proof.
  intros Hm Hc. split.
  - intros Hmiss. unfold run, login. rewrite Hm.
    destruct (form req !! "username") as [username|]; [|reflexivity].
    destruct (form req !! "password") as [password|]; [|reflexivity].
    cbn [Py.not_opt] in Hmiss. rewrite Hmiss. reflexivity.
  - intros username password Hu Hp Hune Hpne.
    rewrite (login_run_checked env req w username password) by assumption.
    split; [|split].
    + intros Hnot. by rewrite select_password_unknown.
    + intros pwhash -> ->. reflexivity.
    + intros pwhash -> ->. reflexivity.
Qed.

(** The seeded administrator logs in. *)
Lemma login_outcomes_witness :
  let req := mkRequest POST (<["username" := "admin"]> {["password" := "admin"]}) in
  let w := mkWorld (db_of roster5 5 []) None None in
  run (login (env0 (solve_checked (cyclic 1 5 0))) req) w
  = (Redirect "dashboard", mkWorld (db_of roster5 5 []) (Some "admin") None,
     [EvExecute SelectPassword]).
Proof.
  intros req w.
  destruct (login_outcomes (env0 (solve_checked (cyclic 1 5 0))) req w)
    as [_ H]; [reflexivity|reflexivity|].
  destruct (H "admin" "admin") as (_ & _ & Hok);
    [reflexivity|reflexivity|discriminate|discriminate|].
  apply (Hok "hash:admin"); reflexivity.
Defined.

(** ** Adding a teacher *)

Lemma modify_teacher_run env req w u :
  w_session w = Some u → connect_error env 0 = None → method req = POST →
  run (modify_teacher env req) w =
  match modify_teacher_post env req (w_db w) w with
  | (Next (conn, success_message, error_message), w', log) =>
      (ModifyTeacherPage (Some (Sql.select_teachers_by_name conn))
         success_message error_message, w', log ++ [EvExecute SelectTeachersByName])
  | (Return r, w', log) => (r, w', log)
  end.
Proof.
  intros Hs Hc Hm. unfold run, modify_teacher.
  rewrite bind_run. unfold session_get at 1. rewrite Hs.
  rewrite bind_run. unfold connect_db at 1. rewrite Hc, Hm.
  cbv [committed mbind handler_bind mret handler_ret execute emit return_].
  destruct (modify_teacher_post env req (w_db w) w) as [[[[[conn s] e]|r] w'] log];
    reflexivity.
Qed.




(** ** Sorting fetched rows *)

Lemma insert_sorted_perm {A} (le : A → A → bool) x l :
  Sql.insert_sorted le x l ≡ₚ x :: l.
Proof.
  induction l as [|y l IH]; cbn; [done|].
  destruct (le x y); [done|]. rewrite IH. apply Permutation_swap.
Qed.

Lemma order_by_perm {A} (le : A → A → bool) l : Sql.order_by le l ≡ₚ l.
Proof.
  unfold Sql.order_by. induction l as [|x l IH]; cbn; [done|].
  by rewrite insert_sorted_perm, IH.
Qed.

Lemma insert_sorted_ordered {A} (le : A → A → bool) x l :
  (∀ a b, le a b = false → le b a = true) →
  ordered le l → ordered le (Sql.insert_sorted le x l).
Proof.
  intros Htotal. induction l as [|y l IH]; [done|]. cbn [Sql.insert_sorted].
  destruct (le x y) eqn:Hxy; [done|]. intros Hl.
  destruct l as [|z l]; [by split; [apply Htotal|]|].
  destruct Hl as [Hyz Hl]. specialize (IH Hl). cbn [Sql.insert_sorted] in IH |- *.
  destruct (le x z); (split; [|exact IH]); [by apply Htotal|exact Hyz].
Qed.

Lemma order_by_ordered {A} (le : A → A → bool) l :
  (∀ a b, le a b = false → le b a = true) → ordered le (Sql.order_by le l).
Proof.
  intros Htotal. unfold Sql.order_by. induction l as [|x l IH]; [done|].
  cbn [foldr]. by apply insert_sorted_ordered.
Qed.


Lemma string_leb_total a b : String.leb a b = false → String.leb b a = true.
Proof. intros Hab. destruct (String.leb_total a b) as [H|H]; congruence. Qed.

Lemma select_timetable_elem db row :
  row ∈ Sql.select_timetable db ↔ row ∈ timetable db.
Proof. unfold Sql.select_timetable. by rewrite order_by_perm. Qed.

(** ** The viewer *)

Lemma placed_lookup data row c :
  placed data row !! c =
  if decide (class_name row = c) then
    let cells := default (replicate 5 None) (data !! c) in
    Some (if slot_ok row
          then <[Z.to_nat (slot row - 1) := Some (teacher_name row)]> cells
          else cells)
  else data !! c.
Proof.
  unfold placed. rewrite lookup_insert.
  destruct (decide (class_name row = c)) as [->|]; reflexivity.
Qed.

Lemma placed_five_cells data row : five_cells data → five_cells (placed data row).
Proof.
  intros Hok c cells. rewrite placed_lookup.
  destruct (decide (class_name row = c)) as [<-|]; [|apply Hok].
  intros [= <-].
  assert (length (default (replicate 5 None) (data !! class_name row)) = 5%nat) as Hlen.
  { destruct (data !! class_name row) as [l|] eqn:Hl; [exact (Hok _ _ Hl)|reflexivity]. }
  destruct (slot_ok row); [by rewrite length_insert|done].
Qed.

Lemma setitem_five {A} (cells : list A) row x :
  length cells = 5%nat → (1 <=? slot row) && (slot row <=? 5) = true →
  Py.setitem cells (slot row - 1) x = Some (<[Z.to_nat (slot row - 1) := x]> cells).
Proof.
  intros Hlen [H1%Z.leb_le H5%Z.leb_le]%andb_true_iff.
  unfold Py.setitem. rewrite Hlen.
  destruct (slot row - 1 <? 0) eqn:E1; [apply Z.ltb_lt in E1; lia|].
  destruct ((0 <=? slot row - 1) && (slot row - 1 <? Z.of_nat 5)) eqn:E2; [done|].
  apply andb_false_iff in E2 as [E%Z.leb_gt|E%Z.ltb_ge]; lia.
Qed.

Lemma place_row_run data row w :
  five_cells data →
  place_row row data w
  = (Next (placed data row), w,
     if slot_ok row then [] else [EvPrint (slot_warning row)]).
Proof.
  intros Hok. unfold place_row, placed, slot_ok.
  destruct (data !! class_name row) as [cells|] eqn:Hcells; cbn [default].
  - destruct ((1 <=? slot row) && (slot row <=? 5)) eqn:Hslot.
    + unfold getitem. rewrite bind_run, Hcells.
      cbv [mret handler_ret].
      rewrite setitem_five by eauto. reflexivity.
    + rewrite bind_run. cbv [print emit mret handler_ret]. cbn [app].
      by rewrite insert_id.
  - destruct ((1 <=? slot row) && (slot row <=? 5)) eqn:Hslot.
    + unfold getitem. rewrite bind_run, lookup_insert_eq.
      cbv [mret handler_ret].
      rewrite setitem_five by (by rewrite ?length_replicate).
      by rewrite insert_insert_eq.
    + rewrite bind_run. cbv [print emit mret handler_ret]. reflexivity.
Qed.

Lemma place_rows_run fetched : ∀ data w,
  five_cells data →
  for_each fetched place_row data w
  = (Next (foldl placed data fetched), w, slot_warnings fetched).
Proof.
  induction fetched as [|row fetched IH]; intros data w Hok; [reflexivity|].
  cbn [for_each foldl]. rewrite bind_run, place_row_run by exact Hok.
  rewrite IH by (by apply placed_five_cells).
  unfold slot_warnings. rewrite filter_cons.
  destruct (slot_ok row); [rewrite decide_False by done|rewrite decide_True by done];
    reflexivity.
Qed.

Lemma foldl_placed_five_cells fetched : ∀ data,
  five_cells data → five_cells (foldl placed data fetched).
Proof.
  induction fetched as [|row l IH]; intros data Hok; [exact Hok|].
  cbn [foldl]. by apply IH, placed_five_cells.
Qed.

Lemma five_cells_empty : five_cells ∅.
Proof. intros c cells. by rewrite lookup_empty. Qed.

Section reshaped.
Context (fetched : list Entry).
Let grid := foldl placed ∅ fetched.

Lemma reshaped_five_cells : five_cells grid.
Proof. apply foldl_placed_five_cells, five_cells_empty. Qed.

Lemma reshaped_classes c : is_Some (grid !! c) ↔ c ∈ class_name <$> fetched.
Proof.
  subst grid. induction fetched as [|row l IH] using rev_ind.
  - cbn [foldl]. rewrite lookup_empty, fmap_nil, elem_of_nil.
    split; [by intros [??]|done].
  - rewrite foldl_snoc, placed_lookup, fmap_app, elem_of_app, <- IH.
    cbn. rewrite list_elem_of_singleton.
    destruct (decide (class_name row = c)) as [Heq|Hne].
    + split; [intros _; by right|intros _; by eexists].
    + split; [by left|]. intros [?|?]; [done|congruence].
Qed.

(** A filled cell holds the teacher of a fetched row of that class whose
    slot is the index plus one. *)
Lemma reshaped_cell_origin c cells i t :
  grid !! c = Some cells → cells !! i = Some (Some t) →
  mkEntry c (Z.of_nat i + 1) t ∈ fetched.
Proof.
  subst grid. revert cells.
  induction fetched as [|row l IH] using rev_ind; intros cells.
  - cbn [foldl]. by rewrite lookup_empty.
  - rewrite foldl_snoc, placed_lookup, elem_of_app, list_elem_of_singleton.
    destruct (decide (class_name row = c)) as [<-|]; [|by eauto].
    cbv zeta. intros [= <-] Hcell.
    assert (default (replicate 5 None) (foldl placed ∅ l !! class_name row) !! i
            = Some (Some t) → mkEntry (class_name row) (Z.of_nat i + 1) t ∈ l) as Hold.
    { destruct (foldl placed ∅ l !! class_name row) as [old|] eqn:Hl; cbn [default].
      - by apply IH.
      - intros [? _]%lookup_replicate. discriminate. }
    unfold slot_ok in Hcell.
    destruct ((1 <=? slot row) && (slot row <=? 5)) eqn:Hslot; [|by eauto].
    apply andb_true_iff in Hslot as [H1%Z.leb_le H5%Z.leb_le].
    apply list_lookup_insert_Some in Hcell as [(<- & [= <-] & _)|[_ Hcell]]; [|by eauto].
    right. destruct row as [cn sl tn]. cbn in *. f_equal. lia.
Qed.

(** The cell of an in-range row is filled. *)
Lemma reshaped_cell_filled row :
  row ∈ fetched → slot_ok row = true →
  ∃ cells t, grid !! class_name row = Some cells
             ∧ cells !! Z.to_nat (slot row - 1) = Some (Some t).
Proof.
  subst grid. induction fetched as [|row' l IH] using rev_ind.
  - by intros ?%elem_of_nil.
  - rewrite elem_of_app, list_elem_of_singleton. intros Hin Hslot.
    rewrite foldl_snoc, placed_lookup.
    assert (Z.to_nat (slot row - 1) < 5)%nat as Hidx.
    { unfold slot_ok in Hslot.
      apply andb_true_iff in Hslot as [H1%Z.leb_le H5%Z.leb_le]. lia. }
    destruct (decide (class_name row' = class_name row)) as [Hc|Hc].
    + cbv zeta.
      set (old := default (replicate 5 None) (foldl placed ∅ l !! class_name row)).
      assert (length old = 5%nat) as Hlen.
      { subst old.
        destruct (foldl placed ∅ l !! class_name row) as [cells|] eqn:Hl; [|done].
        exact (foldl_placed_five_cells l ∅ five_cells_empty _ _ Hl). }
      destruct Hin as [Hin| ->].
      * destruct (IH Hin Hslot) as (cells & t & Hcells & Hcell).
        assert (old = cells) as Hold by (subst old; by rewrite Hcells).
        rewrite Hold in *. clear Hold old.
        destruct (slot_ok row'); [|by eauto].
        destruct (decide (Z.to_nat (slot row' - 1) = Z.to_nat (slot row - 1)))
          as [Heq|Hne].
        -- eexists _, _. split; [done|]. rewrite Heq.
           apply list_lookup_insert_eq. by rewrite Hlen.
        -- eexists _, _. split; [done|]. rewrite list_lookup_insert_ne by done.
           exact Hcell.
      * rewrite Hslot. eexists _, _. split; [done|].
        apply list_lookup_insert_eq. by rewrite Hlen.
    + destruct Hin as [Hin| ->]; [by apply IH|done].
Qed.

End reshaped.

Lemma unique_slots_inj tt a b :
  unique_slots tt → a ∈ tt → b ∈ tt →
  class_name a = class_name b → slot a = slot b → a = b.
Proof.
  unfold unique_slots. induction tt as [|x tt IH]; [by intros _ ?%elem_of_nil|].
  rewrite fmap_cons, NoDup_cons, !elem_of_cons.
  intros [Hx Hnd] [->|Ha] [->|Hb] Hc Hs; [done| | |by apply IH].
  - exfalso. apply Hx, list_elem_of_fmap. exists b. by rewrite Hc, Hs.
  - exfalso. apply Hx, list_elem_of_fmap. exists a. by rewrite Hc, Hs.
Qed.

Lemma view_run env w u :
  w_session w = Some u → connect_error env 0 = None →
  run (view_generate_timetable_page env) w
  = (TimetablePage (Some (foldl placed ∅ (Sql.select_timetable (w_db w)))) None, w,
     EvExecute SelectTimetable :: slot_warnings (Sql.select_timetable (w_db w))).
Proof.
  intros Hs Hc. unfold run, view_generate_timetable_page.
  rewrite bind_run. unfold session_get at 1. rewrite Hs.
  rewrite bind_run. unfold connect_db at 1. rewrite Hc.
  cbv [committed mbind handler_bind mret handler_ret execute emit return_].
  rewrite place_rows_run by apply five_cells_empty.
  cbn [app]. by rewrite app_nil_r.
Qed.

(** C8: the viewer always answers with a grid (it never fails), whatever
    rows are stored.  The grid has one entry per stored class, each of five
    cells; a cell is filled only by a stored row of that class whose slot
    is the index plus one; a row with a slot outside 1..5 fills no cell and
    gets a warning printed; and, the table having one row per class and
    slot, a row with slot [s] in 1..5 has its teacher at index [s - 1]. *)
Theorem view_reshapes_rows env w u :
  w_session w = Some u → connect_error env 0 = None →
  let tt := timetable (w_db w) in
  ∃ grid log,
    run (view_generate_timetable_page env) w
      = (TimetablePage (Some grid) None, w, log)
    ∧ (∀ c, is_Some (grid !! c) ↔ c ∈ class_name <$> tt)
    ∧ (∀ c cells, grid !! c = Some cells → length cells = 5%nat)
    ∧ (∀ c cells i t, grid !! c = Some cells → cells !! i = Some (Some t) →
         mkEntry c (Z.of_nat i + 1) t ∈ tt)
    ∧ (∀ row, row ∈ tt → ¬ (1 ≤ slot row ≤ 5) →
         EvPrint (slot_warning row) ∈ log)
    ∧ (∀ row, row ∈ tt → 1 ≤ slot row ≤ 5 → unique_slots tt →
         ∃ cells, grid !! class_name row = Some cells
           ∧ cells !! Z.to_nat (slot row - 1) = Some (Some (teacher_name row))).
Proof.
  intros Hs Hc tt. eexists _, _. split; [by apply (view_run env w u)|].
  set (fetched := Sql.select_timetable (w_db w)).
  assert (∀ row, row ∈ fetched ↔ row ∈ tt) as Hfetched
    by apply select_timetable_elem.
  split; [|split; [|split; [|split]]].
  - intros c. rewrite reshaped_classes, !list_elem_of_fmap.
    by setoid_rewrite Hfetched.
  - apply reshaped_five_cells.
  - intros c cells i t Hcells Hcell. apply Hfetched.
    by eapply reshaped_cell_origin.
  - intros row Hrow Hslot. right. unfold slot_warnings.
    apply list_elem_of_fmap. exists row. split; [done|].
    apply list_elem_of_filter. split; [|by apply Hfetched].
    unfold slot_ok. apply andb_false_iff.
    destruct (decide (1 ≤ slot row)); [right|left]; [apply Z.leb_gt|apply Z.leb_gt]; lia.
  - intros row Hrow Hslot Huniq.
    assert (slot_ok row = true) as Hok.
    { unfold slot_ok. apply andb_true_iff. split; apply Z.leb_le; lia. }
    destruct (reshaped_cell_filled fetched row) as (cells & t & Hcells & Hcell);
      [by apply Hfetched|done|].
    exists cells. split; [done|]. rewrite Hcell. do 2 f_equal.
    pose proof (reshaped_cell_origin fetched _ _ _ _ Hcells Hcell) as Hin.
    apply Hfetched in Hin.
    assert (mkEntry (class_name row) (Z.of_nat (Z.to_nat (slot row - 1)) + 1) t = row)
      as Heq.
    { apply (unique_slots_inj tt); [done|done|done|done|cbn; lia]. }
    by rewrite <- Heq.
Qed.

(** The viewer on five stored rows, two of them out of range. *)
Lemma view_reshapes_rows_witness :
  let w := world_of (db_of roster5 5 sample_table) in
  ∃ grid log,
    run (view_generate_timetable_page (env0 (solve_checked (cyclic 1 5 0)))) w
      = (TimetablePage (Some grid) None, w, log)
    ∧ grid !! "MCA I" = Some [Some "Asha"; None; None; None; Some "Chitra"]
    ∧ EvPrint "Warning: Unexpected slot number 7 for class MCA I" ∈ log.
Proof.
  intros w.
  destruct (view_reshapes_rows (env0 (solve_checked (cyclic 1 5 0))) w "admin")
    as (grid & log & Hrun & _ & _ & _ & Hwarn & _); [reflexivity|reflexivity|].
  exists grid, log. split; [exact Hrun|].
  assert (Hrun' := Hrun). vm_compute in Hrun'.
  injection Hrun' as <- <-.
  split; [vm_compute; reflexivity|].
  apply (list_elem_of_lookup_2 _ 1). reflexivity.
Defined.

(** ** The exporter *)

Lemma pivot_index_spec fetched :
  NoDup (pivot_index fetched)
  ∧ ∀ c, c ∈ pivot_index fetched ↔ c ∈ class_name <$> fetched.
Proof.
  unfold pivot_index. split.
  - rewrite order_by_perm. apply NoDup_remove_dups.
  - intros c. by rewrite order_by_perm, elem_of_remove_dups.
Qed.

Lemma pivot_columns_spec fetched :
  NoDup (pivot_columns fetched)
  ∧ ∀ s, s ∈ pivot_columns fetched ↔ s ∈ slot <$> fetched.
Proof.
  unfold pivot_columns. split.
  - rewrite order_by_perm. apply NoDup_remove_dups.
  - intros s. by rewrite order_by_perm, elem_of_remove_dups.
Qed.

Lemma pivot_cell_origin fetched c s t :
  pivot_cell fetched c s = Some t → mkEntry c s t ∈ fetched.
Proof.
  unfold pivot_cell.
  destruct (filter _ fetched) as [|row l] eqn:Hf; [done|]. intros [= <-].
  assert (row ∈ filter (λ r, class_name r = c ∧ slot r = s) fetched) as Hrow
    by (rewrite Hf; left).
  apply list_elem_of_filter in Hrow as [[<- <-] Hrow]. by destruct row.
Qed.

Lemma pivot_cell_filled fetched row :
  row ∈ fetched → is_Some (pivot_cell fetched (class_name row) (slot row)).
Proof.
  intros Hrow. unfold pivot_cell.
  assert (row ∈ filter (λ r, class_name r = class_name row ∧ slot r = slot row) fetched)
    as Hin by (by apply list_elem_of_filter).
  destruct (filter _ fetched); [by apply elem_of_nil in Hin|by eexists].
Qed.

Lemma z_leb_total a b : (a <=? b) = false → (b <=? a) = true.
Proof. intros H%Z.leb_gt. apply Z.leb_le. lia. Qed.

Lemma export_run env w u :
  w_session w = Some u → connect_error env 0 = None →
  run (export_timetable env) w =
  match Sql.select_timetable (w_db w) with
  | [] => (Text "No timetable data to export." 404, w, [EvExecute SelectTimetable])
  | _ =>
      match excel_error env with
      | Some e =>
          (Text ("Error exporting timetable: " +:+ e) 500, w,
           [EvExecute SelectTimetable; EvPrint ("Error exporting timetable: " +:+ e)])
      | None =>
          (Text "Timetable exported successfully to timetable.xlsx!" 200,
           mkWorld (w_db w) (w_session w)
             (Some (pivot_df (Sql.select_timetable (w_db w)))),
           [EvExecute SelectTimetable; EvToExcel "timetable.xlsx"])
      end
  end.
Proof.
  intros Hs Hc. unfold run, export_timetable.
  rewrite bind_run. unfold session_get at 1. rewrite Hs.
  rewrite bind_run. unfold connect_db at 1. rewrite Hc.
  cbv [committed mbind handler_bind mret handler_ret execute emit].
  rewrite <- Hs.
  destruct (Sql.select_timetable (w_db w)); [reflexivity|].
  cbv [to_excel]. destruct (excel_error env); reflexivity.
Qed.

Lemma select_timetable_nil db : Sql.select_timetable db = [] ↔ timetable db = [].
Proof.
  unfold Sql.select_timetable. split; intros H.
  - apply Permutation_nil_r. rewrite <- H. symmetry. apply order_by_perm.
  - by rewrite H.
Qed.

(** C9: with an empty table the exporter answers 404 "No timetable data
    to export." and writes no file.  With a non-empty table (and no
    failure of the spreadsheet writer) it writes the pivot: a header
    "Class", "Period s", ... with one column per distinct stored slot, in
    ascending order, and one row per distinct stored class, in ascending
    order, led by the class name.  Every stored row fills the cell of its
    class and slot, with its own teacher under the table's uniqueness of
    class and slot, and every filled cell comes from a stored row of that
    class and slot: the other cells are empty. *)
Theorem export_outcomes env w u :
  w_session w = Some u → connect_error env 0 = None →
  let tt := timetable (w_db w) in
  (tt = [] →
   run (export_timetable env) w
     = (Text "No timetable data to export." 404, w, [EvExecute SelectTimetable])
   ∧ ¬ (200 ≤ http_status (Text "No timetable data to export." 404) < 300))
  ∧ (tt ≠ [] → excel_error env = None →
     ∃ df idx cols,
       run (export_timetable env) w
         = (Text "Timetable exported successfully to timetable.xlsx!" 200,
            mkWorld (w_db w) (w_session w) (Some df),
            [EvExecute SelectTimetable; EvToExcel "timetable.xlsx"])
       ∧ NoDup idx ∧ (∀ c, c ∈ idx ↔ c ∈ class_name <$> tt)
       ∧ NoDup cols ∧ (∀ s, s ∈ cols ↔ s ∈ slot <$> tt)
       ∧ ordered String.leb idx ∧ ordered Z.leb cols
       ∧ columns df = "Class" :: ((λ s, "Period " +:+ Py.str s) <$> cols)
       ∧ ∃ cell,
           rows df = (λ c, Some c :: (cell c <$> cols)) <$> idx
           ∧ (∀ c s t, cell c s = Some t → mkEntry c s t ∈ tt)
           ∧ (∀ row, row ∈ tt → is_Some (cell (class_name row) (slot row)))
           ∧ (unique_slots tt →
              ∀ row, row ∈ tt → cell (class_name row) (slot row) = Some (teacher_name row))).
Proof.
  intros Hs Hc tt. rewrite (export_run env w u) by assumption.
  assert (∀ row, row ∈ Sql.select_timetable (w_db w) ↔ row ∈ tt) as Hfetched
    by apply select_timetable_elem.
  pose proof (select_timetable_nil (w_db w)) as Hnil.
  split.
  - intros Htt. split; [|cbn; lia]. by rewrite (proj2 Hnil Htt).
  - intros Htt Hx.
    exists (pivot_df (Sql.select_timetable (w_db w))),
           (pivot_index (Sql.select_timetable (w_db w))),
           (pivot_columns (Sql.select_timetable (w_db w))).
    split.
    { destruct (Sql.select_timetable (w_db w)) as [|row l] eqn:Hf.
      - exfalso. by apply Htt, Hnil.
      - by rewrite Hx. }
    destruct (pivot_index_spec (Sql.select_timetable (w_db w))) as [Hi1 Hi2].
    destruct (pivot_columns_spec (Sql.select_timetable (w_db w))) as [Hc1 Hc2].
    split; [exact Hi1|]. split.
    { intros c. rewrite Hi2, !list_elem_of_fmap. by setoid_rewrite Hfetched. }
    split; [exact Hc1|]. split.
    { intros s. rewrite Hc2, !list_elem_of_fmap. by setoid_rewrite Hfetched. }
    split; [apply order_by_ordered, string_leb_total|].
    split; [apply order_by_ordered, z_leb_total|].
    split; [reflexivity|].
    exists (pivot_cell (Sql.select_timetable (w_db w))). split; [reflexivity|].
    assert (∀ c s t, pivot_cell (Sql.select_timetable (w_db w)) c s = Some t →
                     mkEntry c s t ∈ tt) as Horigin.
    { intros c s t Hcell. by apply Hfetched, pivot_cell_origin. }
    split; [exact Horigin|]. split.
    { intros row Hrow. by apply pivot_cell_filled, Hfetched. }
    intros Huniq row Hrow.
    destruct (pivot_cell_filled (Sql.select_timetable (w_db w)) row) as [t Ht];
      [by apply Hfetched|].
    rewrite Ht. f_equal.
    assert (mkEntry (class_name row) (slot row) t = row) as Heq
      by (by apply (unique_slots_inj tt); [|apply Horigin|..]).
    by rewrite <- Heq.
Qed.

(** The exporter on an empty table and on five stored rows. *)
Lemma export_outcomes_witness :
  let env := env0 (solve_checked (cyclic 1 5 0)) in
  run (export_timetable env) (world_of (db_of roster5 5 []))
    = (Text "No timetable data to export." 404, world_of (db_of roster5 5 []),
       [EvExecute SelectTimetable])
  ∧ ∃ df,
      (run (export_timetable env) (world_of (db_of roster5 5 sample_table))).1.2
        = mkWorld (db_of roster5 5 sample_table) (Some "admin") (Some df)
      ∧ columns df = ["Class"; "Period 0"; "Period 1"; "Period 2"; "Period 5"; "Period 7"]
      ∧ rows df
        = [[Some "MCA I"; None; Some "Asha"; None; Some "Chitra"; Some "Dev"];
           [Some "MSC I"; Some "Esha"; None; Some "Binu"; None; None]].
Proof.
  intros env. split.
  - apply (export_outcomes env (world_of (db_of roster5 5 [])) "admin");
      reflexivity.
  - destruct (export_outcomes env (world_of (db_of roster5 5 sample_table)) "admin")
      as [_ H]; [reflexivity|reflexivity|].
    destruct H as (df & idx & cols & Hrun & _); [discriminate|reflexivity|].
    exists df. rewrite Hrun. split; [reflexivity|].
    vm_compute in Hrun. injection Hrun as <-.
    split; vm_compute; reflexivity.
Defined.

(** * Further properties *)

(** ** Sessions *)

Lemma unauthenticated_page env req w :
  w_session w = None →
  run (modify_teacher env req) w = (Redirect "login", w, [])
  ∧ run (view_generate_timetable_page env) w = (Redirect "login", w, [])
  ∧ run (export_timetable env) w = (Redirect "login", w, []).
Proof.
  intros Hs. repeat split.
  - unfold run, modify_teacher. rewrite bind_run. unfold session_get. by rewrite Hs.
  - unfold run, view_generate_timetable_page. rewrite bind_run.
    unfold session_get. by rewrite Hs.
  - unfold run, export_timetable. rewrite bind_run. unfold session_get. by rewrite Hs.
Qed.

(** X1: without a session, the roster page, the viewer and the exporter
    redirect to the login page and the generator answers 401; none of them
    opens the database, and the world stays as it is. *)
Theorem unauthenticated_requests env req w :
  w_session w = None →
  run (modify_teacher env req) w = (Redirect "login", w, [])
  ∧ run (view_generate_timetable_page env) w = (Redirect "login", w, [])
  ∧ run (generate_timetable_process env) w = (JsonError "Unauthorized" 401, w, [])
  ∧ run (export_timetable env) w = (Redirect "login", w, []).
Proof.
  intros Hs. destruct (unauthenticated_page env req w Hs) as (Hm & Hv & He).
  split; [exact Hm|]. split; [exact Hv|]. split; [|exact He].
  rewrite generate_run. unfold generate_outcome. by rewrite Hs.
Qed.

(** A request for a new schedule from a visitor who never logged in. *)
Lemma unauthenticated_requests_witness :
  let w := mkWorld (db_of roster5 5 old_table) None None in
  run (generate_timetable_process (env0 (solve_checked (cyclic 1 5 0)))) w
  = (JsonError "Unauthorized" 401, w, []).
Proof.
  intros w.
  apply (unauthenticated_requests (env0 (solve_checked (cyclic 1 5 0)))
           (mkRequest GET ∅) w).
  reflexivity.
Defined.


(** X3: the login route redirects to the dashboard only for a POST with
    both fields filled in whose password checks against the hash stored
    for that username, and the session then holds exactly that username.
    It never changes the store or the exported file, and any other answer
    leaves the session as it was. *)
Theorem login_only_with_valid_password env req w r w' log :
  run (login env req) w = (r, w', log) →
  w_db w' = w_db w ∧ w_xlsx w' = w_xlsx w
  ∧ ((∃ error, r = LoginPage error) ∧ w' = w
     ∨ r = Redirect "dashboard"
       ∧ ∃ username password pwhash,
           method req = POST
           ∧ form req !! "username" = Some username
           ∧ form req !! "password" = Some password
           ∧ username ≠ "" ∧ password ≠ ""
           ∧ mkUser username pwhash ∈ users (w_db w)
           ∧ check_password_hash env pwhash password = true
           ∧ w_session w' = Some username).
Proof.
  unfold run, login. intros H.
  assert (∀ e l, (LoginPage e, w, l) = (r, w', log) →
            w_db w' = w_db w ∧ w_xlsx w' = w_xlsx w
            ∧ ((∃ error, r = LoginPage error) ∧ w' = w
               ∨ r = Redirect "dashboard"
                 ∧ ∃ username password pwhash,
                     method req = POST
                     ∧ form req !! "username" = Some username
                     ∧ form req !! "password" = Some password
                     ∧ username ≠ "" ∧ password ≠ ""
                     ∧ mkUser username pwhash ∈ users (w_db w)
                     ∧ check_password_hash env pwhash password = true
                     ∧ w_session w' = Some username)) as Hpage.
  { intros e l [= <- <- _]. split; [done|]. split; [done|]. left. eauto. }
  destruct (method req) eqn:Hm; [exact (Hpage _ _ H)|].
  destruct (form req !! "username") as [username|] eqn:Hu; [|exact (Hpage _ _ H)].
  destruct (form req !! "password") as [password|] eqn:Hp; [|exact (Hpage _ _ H)].
  destruct (Py.not_str username) eqn:Hue; [exact (Hpage _ _ H)|].
  destruct (Py.not_str password) eqn:Hpe; [exact (Hpage _ _ H)|].
  cbn [orb] in H. rewrite bind_run in H. unfold connect_db in H.
  destruct (connect_error env 0); [exact (Hpage _ _ H)|].
  cbv [mbind handler_bind committed mret handler_ret execute emit] in H.
  destruct (Sql.select_password (w_db w) username) as [pwhash|] eqn:Hsel;
    [|exact (Hpage _ _ H)].
  destruct (check_password_hash env pwhash password) eqn:Hcheck; [|exact (Hpage _ _ H)].
  injection H as <- <- _. split; [done|]. split; [done|]. right. split; [done|].
  exists username, password, pwhash.
  apply String.eqb_neq in Hue, Hpe. repeat split; try done.
  unfold Sql.select_password in Hsel.
  destruct (filter _ (users (w_db w))) as [|x l] eqn:Hf; [done|].
  injection Hsel as <-.
  assert (x ∈ filter (λ u, u_username u = username) (users (w_db w))) as Hx
    by (rewrite Hf; left).
  apply list_elem_of_filter in Hx as [<- Hx]. by destruct x.
Qed.

(** The administrator of the sample store logs in. *)
Lemma login_only_with_valid_password_witness :
  let w := mkWorld (db_of roster5 5 []) None None in
  w_db (run (login (env0 (solve_checked (cyclic 1 5 0)))
               (login_request "admin" "admin")) w).1.2 = w_db w.
Proof.
  intros w.
  refine (proj1 (login_only_with_valid_password
                   (env0 (solve_checked (cyclic 1 5 0)))
                   (login_request "admin" "admin") w _ _ _ _)).
  vm_compute. reflexivity.
Defined.

(** ** Initialisation *)

(** X4: on a store without users, [init_db] adds the administrator "admin"
    with the hash of the password "admin" and nothing else, so that, the
    hash and the check agreeing, admin/admin logs in; a store that has a
    user is left exactly as it is; and running [init_db] again changes
    nothing. *)
Theorem init_db_seeds_admin_once env generate_password_hash w :
  connect_error env 0 = None →
  let w' := (init_db env generate_password_hash w).1 in
  teachers (w_db w') = teachers (w_db w)
  ∧ timetable (w_db w') = timetable (w_db w)
  ∧ w_session w' = w_session w
  ∧ (users (w_db w) = [] →
     users (w_db w') = [mkUser "admin" (generate_password_hash "admin")]
     ∧ (check_password_hash env (generate_password_hash "admin") "admin" = true →
        run (login env (login_request "admin" "admin")) w'
        = (Redirect "dashboard", mkWorld (w_db w') (Some "admin") (w_xlsx w'),
           [EvExecute SelectPassword])))
  ∧ (users (w_db w) ≠ [] → w' = w)
  ∧ (init_db env generate_password_hash w').1 = w'.
Proof.
  intros Hc w'. subst w'. unfold init_db. rewrite Hc.
  destruct w as [[us ts sq tt] se x]. cbn [w_db users w_session w_xlsx].
  destruct us as [|u l]; cbn [length].
  - rewrite bool_decide_true by done. cbn [fst w_db insert_user users app
      teachers timetable w_session w_xlsx length].
    rewrite bool_decide_false by done.
    split; [done|]. split; [done|]. split; [done|]. split; [|done].
    intros _. split; [done|]. intros Hcheck.
    rewrite (login_run_checked env _ _ "admin" "admin"); try done.
    unfold Sql.select_password. cbn [w_db w_xlsx users insert_user app].
    rewrite filter_cons_True by done. cbn [head fmap option_fmap option_map u_password].
    by rewrite Hcheck.
  - rewrite bool_decide_false by done. cbn [fst w_db users length].
    rewrite bool_decide_false by done. done.
Qed.

(** A new database file, initialised. *)
Lemma init_db_seeds_admin_once_witness :
  users (w_db (init_db (env0 (solve_checked (cyclic 1 5 0))) hash0
                 (mkWorld empty_db None None)).1)
  = [mkUser "admin" "hash:admin"].
Proof.
  destruct (init_db_seeds_admin_once (env0 (solve_checked (cyclic 1 5 0))) hash0
              (mkWorld empty_db None None))
    as (_ & _ & _ & Hseed & _); [reflexivity|].
  destruct Hseed as [Husers _]; [reflexivity|]. exact Husers.
Defined.

(** ** An unreachable database *)

(** X5: when [connect_db] fails, every route prints the error and answers
    with its own failure message (the generator with status 500, the
    exporter likewise); nothing is executed and the world stays as it is. *)
Theorem database_unreachable env req w u e username password :
  connect_error env 0 = Some e →
  let printed := [EvPrint ("Database connection error: " +:+ e)] in
  (method req = POST → form req !! "username" = Some username →
   form req !! "password" = Some password → username ≠ "" → password ≠ "" →
   run (login env req) w
   = (LoginPage (Some "Database connection failed."), w, printed))
  ∧ (w_session w = Some u →
     run (modify_teacher env req) w
       = (ModifyTeacherPage None None (Some "Database connection failed."), w, printed)
     ∧ run (view_generate_timetable_page env) w
       = (TimetablePage None (Some "Database connection failed."), w, printed)
     ∧ run (generate_timetable_process env) w
       = (JsonError "Database connection failed." 500, w, printed)
     ∧ run (export_timetable env) w
       = (Text "Database connection failed for export." 500, w, printed)).
Proof.
  intros Hc printed. split.
  - intros Hm Hu Hp Hune Hpne. unfold run, login. rewrite Hm, Hu, Hp.
    apply String.eqb_neq in Hune, Hpne. unfold Py.not_str. rewrite Hune, Hpne.
    cbn [orb]. rewrite bind_run. unfold connect_db. by rewrite Hc.
  - intros Hs. repeat split.
    + unfold run, modify_teacher. rewrite bind_run. unfold session_get at 1.
      rewrite Hs. rewrite bind_run. unfold connect_db. by rewrite Hc.
    + unfold run, view_generate_timetable_page. rewrite bind_run.
      unfold session_get at 1. rewrite Hs. rewrite bind_run.
      unfold connect_db. by rewrite Hc.
    + rewrite generate_run. unfold generate_outcome. by rewrite Hs, Hc.
    + unfold run, export_timetable. rewrite bind_run. unfold session_get at 1.
      rewrite Hs. rewrite bind_run. unfold connect_db. by rewrite Hc.
Qed.

(** A locked database file. *)
Lemma database_unreachable_witness :
  let env := mkEnv (λ _ _, true) (λ _, Some "database is locked") None
               (solve_checked (cyclic 1 5 0)) None (λ _, None) in
  let w := world_of (db_of roster5 5 old_table) in
  run (generate_timetable_process env) w
  = (JsonError "Database connection failed." 500, w,
     [EvPrint "Database connection error: database is locked"]).
Proof.
  intros env w.
  destruct (database_unreachable env (login_request "admin" "admin") w "admin"
              "database is locked" "admin" "admin") as [_ H]; [reflexivity|].
  destruct H as (_ & _ & Hgen & _); [reflexivity|]. exact Hgen.
Defined.

(** ** The roster page *)

(** [str.strip]: what is left starts and ends with no whitespace, and
    stripping it again changes nothing. *)
Section strip.
Context (chars : list (list ascii)).

Lemma leading_Some s c : Py.leading chars s = Some c → c ∈ chars ∧ c `prefix_of` s.
Proof.
  unfold Py.leading. intros H.
  assert (c ∈ filter (λ c, c `prefix_of` s) chars) as Hc.
  { destruct (filter _ chars); [done|]. injection H as ->. left. }
  apply list_elem_of_filter in Hc. tauto.
Qed.

Lemma leading_None s : Py.leading chars s = None ↔ ∀ c, c ∈ chars → ¬ c `prefix_of` s.
Proof.
  unfold Py.leading. split.
  - intros H c Hc Hp.
    assert (c ∈ filter (λ c, c `prefix_of` s) chars) as Hin
      by (by apply list_elem_of_filter).
    destruct (filter _ chars); [by apply elem_of_nil in Hin|done].
  - intros H. destruct (filter _ chars) as [|c l] eqn:Hf; [done|].
    assert (c ∈ filter (λ c, c `prefix_of` s) chars) as Hin by (rewrite Hf; left).
    apply list_elem_of_filter in Hin as [Hp Hc]. by destruct (H c Hc).
Qed.

Lemma lstrip_chars_id n s : Py.leading chars s = None → Py.lstrip_chars chars n s = s.
Proof. intros H. destruct n; [done|]. cbn. by rewrite H. Qed.

Lemma lstrip_chars_suffix n s : Py.lstrip_chars chars n s `suffix_of` s.
Proof.
  revert s. induction n as [|n IH]; intros s; cbn; [done|].
  destruct (Py.leading chars s); [|done].
  etrans; [apply IH|]. apply suffix_drop.
Qed.

(** With [length s] as fuel, nothing is left to remove. *)
Lemma lstrip_chars_done n s :
  (∀ c, c ∈ chars → c ≠ []) → (length s ≤ n)%nat →
  Py.leading chars (Py.lstrip_chars chars n s) = None.
Proof.
  intros Hne. revert s. induction n as [|n IH]; intros s Hn; cbn.
  - destruct s; [|cbn in Hn; lia]. apply leading_None.
    intros c Hc Hp. apply prefix_nil_inv in Hp. by apply (Hne c).
  - destruct (Py.leading chars s) as [c|] eqn:Hl; [|done].
    apply IH. destruct (leading_Some _ _ Hl) as [Hc [k ->]].
    rewrite drop_app_length. rewrite length_app in Hn.
    specialize (Hne c Hc). destruct c; [done|]. cbn in Hn. lia.
Qed.

End strip.

Lemma whitespace_nonempty c : c ∈ Py.utf8 <$> Py.whitespace → c ≠ [].
Proof.
  revert c. apply Forall_forall. apply (bool_decide_unpack _). vm_compute. exact I.
Qed.

Lemma whitespace_reverse_nonempty c :
  c ∈ reverse <$> (Py.utf8 <$> Py.whitespace) → c ≠ [].
Proof.
  revert c. apply Forall_forall. apply (bool_decide_unpack _). vm_compute. exact I.
Qed.

Lemma lstrip_stripped s : Py.leading (Py.utf8 <$> Py.whitespace) (Py.lstrip s) = None.
Proof. apply lstrip_chars_done; [apply whitespace_nonempty|done]. Qed.

Lemma rstrip_prefix s : Py.rstrip s `prefix_of` s.
Proof.
  unfold Py.rstrip. apply prefix_suffix_reverse. rewrite reverse_involutive.
  apply lstrip_chars_suffix.
Qed.

Lemma rstrip_stripped s :
  Py.leading (reverse <$> (Py.utf8 <$> Py.whitespace)) (reverse (Py.rstrip s)) = None.
Proof.
  unfold Py.rstrip. rewrite reverse_involutive.
  apply lstrip_chars_done; [apply whitespace_reverse_nonempty|].
  by rewrite length_reverse.
Qed.

Lemma strip_idemp s : Py.strip (Py.strip s) = Py.strip s.
Proof.
  unfold Py.strip. rewrite String.list_ascii_of_string_of_list_ascii. f_equal.
  set (t := Py.lstrip (String.list_ascii_of_string s)).
  assert (Py.lstrip (Py.rstrip t) = Py.rstrip t) as ->.
  { apply lstrip_chars_id, leading_None. intros c Hc Hp.
    pose proof (lstrip_stripped (String.list_ascii_of_string s)) as Hnone.
    apply (proj1 (leading_None _ _) Hnone c Hc).
    etrans; [exact Hp|apply rstrip_prefix]. }
  unfold Py.rstrip at 1. rewrite lstrip_chars_id by apply rstrip_stripped.
  apply reverse_involutive.
Qed.

Lemma not_str_false s : Py.not_str s = false ↔ s ≠ "".
Proof. unfold Py.not_str. apply String.eqb_neq. Qed.

Lemma foldl_max_bound (a : Z) (l : list Z) :
  a ≤ foldl Z.max a l ∧ ∀ x, x ∈ l → x ≤ foldl Z.max a l.
Proof.
  revert a. induction l as [|y l IH]; intros a; cbn [foldl].
  - split; [lia|]. by intros x ?%elem_of_nil.
  - destruct (IH (Z.max a y)) as [Ha Hl]. split; [lia|].
    intros x [->|Hx]%elem_of_cons; [lia|by apply Hl].
Qed.

(** The add form, by cases. *)
Lemma add_teacher_run env req w u name subject :
  w_session w = Some u → connect_error env 0 = None → method req = POST →
  form req !! "name" = Some name → form req !! "subject" = Some subject →
  let n := Py.strip name in
  let s := Py.strip subject in
  let listing := Sql.select_teachers_by_name in
  run (modify_teacher env req) w =
  if Py.not_str n || Py.not_str s then
    (ModifyTeacherPage (Some (listing (w_db w))) None
       (Some "Teacher name and subject are required."), w,
     [EvExecute SelectTeachersByName])
  else
    match execute_error env with
    | Some e =>
        (ModifyTeacherPage (Some (listing (w_db w))) None (Some (add_error_message e)),
         w, [EvExecute InsertTeacher; EvExecute SelectTeachersByName])
    | None =>
        match Sql.insert_teacher (w_db w) n s with
        | Some db' =>
            (ModifyTeacherPage (Some (listing db')) (Some (added_message n)) None,
             mkWorld db' (w_session w) (w_xlsx w),
             [EvExecute InsertTeacher; EvCommit; EvExecute SelectTeachersByName])
        | None =>
            (ModifyTeacherPage (Some (listing (w_db w))) None (Some (exists_message n)),
             w, [EvExecute InsertTeacher; EvExecute SelectTeachersByName])
        end
    end.
Proof.
  intros Hs Hc Hm Hn Hsub n s listing.
  rewrite (modify_teacher_run env req w u) by assumption.
  unfold modify_teacher_post. rewrite Hn, Hsub. fold n s.
  destruct (Py.not_str n || Py.not_str s); [reflexivity|].
  rewrite bind_run. unfold execute at 1, emit at 1.
  destruct (execute_error env); [reflexivity|].
  destruct (Sql.insert_teacher (w_db w) n s); reflexivity.
Qed.

(** The delete form, by cases. *)
Lemma delete_teacher_run env req w u delete_name :
  w_session w = Some u → connect_error env 0 = None → method req = POST →
  form req !! "name" = None ∨ form req !! "subject" = None →
  form req !! "delete_name" = Some delete_name →
  let d := Py.strip delete_name in
  let listing := Sql.select_teachers_by_name in
  run (modify_teacher env req) w =
  if Py.not_str d then
    (ModifyTeacherPage (Some (listing (w_db w))) None
       (Some "Teacher name to delete is required."), w,
     [EvExecute SelectTeachersByName])
  else
    match execute_error env with
    | Some e =>
        (ModifyTeacherPage (Some (listing (w_db w))) None
           (Some (delete_error_message e)),
         w, [EvExecute DeleteTeacher; EvExecute SelectTeachersByName])
    | None =>
        let db' := (Sql.delete_teacher (w_db w) d).2 in
        if 0 <? (Sql.delete_teacher (w_db w) d).1 then
          (ModifyTeacherPage (Some (listing db')) (Some (deleted_message d)) None,
           mkWorld db' (w_session w) (w_xlsx w),
           [EvExecute DeleteTeacher; EvCommit; EvExecute SelectTeachersByName])
        else
          (ModifyTeacherPage (Some (listing db')) None (Some (not_found_message d)),
           w, [EvExecute DeleteTeacher; EvExecute SelectTeachersByName])
    end.
Proof.
  intros Hs Hc Hm Hform Hd d listing.
  rewrite (modify_teacher_run env req w u) by assumption.
  unfold modify_teacher_post. rewrite Hd. fold d.
  destruct (form req !! "name") as [name|] eqn:Hn;
    [destruct (form req !! "subject") as [subject|] eqn:Hsub;
       [destruct Hform; discriminate|]|].
  all: destruct (Py.not_str d); [reflexivity|].
  all: rewrite bind_run; unfold execute at 1, emit at 1.
  all: destruct (execute_error env); [reflexivity|].
  all: unfold Sql.delete_teacher; cbn [fst snd].
  all: destruct (0 <? _); reflexivity.
Qed.

Lemma filter_all {A} (P : A → Prop) `{∀ x, Decision (P x)} (l : list A) :
  Forall P l → filter P l = l.
Proof.
  induction 1 as [|x l Hx _ IH]; [done|]. by rewrite filter_cons_True, IH.
Qed.





(** X8: deleting a name that is not on the roster reports "not found",
    commits nothing and leaves the world as it is. *)
Theorem delete_unknown_teacher env req w u delete_name :
  w_session w = Some u → connect_error env 0 = None → method req = POST →
  form req !! "name" = None ∨ form req !! "subject" = None →
  form req !! "delete_name" = Some delete_name →
  Py.strip delete_name ≠ "" → execute_error env = None →
  Py.strip delete_name ∉ t_name <$> teachers (w_db w) →
  run (modify_teacher env req) w
  = (ModifyTeacherPage (Some (Sql.select_teachers_by_name (w_db w))) None
       (Some (not_found_message (Py.strip delete_name))), w,
     [EvExecute DeleteTeacher; EvExecute SelectTeachersByName]).
Proof.
  intros Hs Hc Hm Hform Hd Hne He Hnot.
  rewrite (delete_teacher_run env req w u delete_name) by assumption.
  apply not_str_false in Hne. rewrite Hne, He. cbv zeta.
  unfold Sql.delete_teacher. cbn [fst snd].
  rewrite filter_all.
  - rewrite Z.sub_diag. cbn. unfold Sql.select_teachers_by_name. reflexivity.
  - apply Forall_forall. intros t Ht Heq. apply Hnot, list_elem_of_fmap. eauto.
Qed.

(** Nobody called "Zed" teaches here. *)
Lemma delete_unknown_teacher_witness :
  let w := world_of (db_of roster5 5 old_table) in
  (run (modify_teacher (env0 (solve_checked (cyclic 1 5 0))) (delete_request "Zed")) w).1
  = (ModifyTeacherPage (Some (Sql.select_teachers_by_name (w_db w))) None
       (Some "Teacher 'Zed' not found."), w).
Proof.
  intros w.
  rewrite (delete_unknown_teacher (env0 (solve_checked (cyclic 1 5 0)))
             (delete_request "Zed") w "admin" "Zed"); try reflexivity.
  - left. reflexivity.
  - vm_compute. discriminate.
  - apply (bool_decide_unpack _). vm_compute. exact I.
Defined.

(** X9: a form with a blank field is answered with the message of the
    form, without any statement on the roster being executed; the world
    stays as it is. *)
Theorem blank_fields_rejected env req w u :
  w_session w = Some u → connect_error env 0 = None → method req = POST →
  (∀ name subject,
     form req !! "name" = Some name → form req !! "subject" = Some subject →
     Py.strip name = "" ∨ Py.strip subject = "" →
     run (modify_teacher env req) w
     = (ModifyTeacherPage (Some (Sql.select_teachers_by_name (w_db w))) None
          (Some "Teacher name and subject are required."), w,
        [EvExecute SelectTeachersByName]))
  ∧ (∀ delete_name,
       form req !! "name" = None ∨ form req !! "subject" = None →
       form req !! "delete_name" = Some delete_name →
       Py.strip delete_name = "" →
       run (modify_teacher env req) w
       = (ModifyTeacherPage (Some (Sql.select_teachers_by_name (w_db w))) None
            (Some "Teacher name to delete is required."), w,
          [EvExecute SelectTeachersByName])).
Proof.
  intros Hs Hc Hm. split.
  - intros name subject Hn Hsub Hblank.
    rewrite (add_teacher_run env req w u name subject) by assumption.
    unfold Py.not_str. destruct Hblank as [-> | ->]; [done|].
    by rewrite orb_true_r.
  - intros delete_name Hform Hd Hblank.
    rewrite (delete_teacher_run env req w u delete_name) by assumption.
    unfold Py.not_str. by rewrite Hblank.
Qed.

(** A name made of a no-break space and a space. *)
Lemma blank_fields_rejected_witness :
  let w := world_of (db_of roster5 5 []) in
  run (modify_teacher (env0 (solve_checked (cyclic 1 5 0))) (add_request (nbsp +:+ " ") "Maths")) w
  = (ModifyTeacherPage (Some (Sql.select_teachers_by_name (w_db w))) None
       (Some "Teacher name and subject are required."), w,
     [EvExecute SelectTeachersByName]).
Proof.
  intros w.
  destruct (blank_fields_rejected (env0 (solve_checked (cyclic 1 5 0)))
              (add_request (nbsp +:+ " ") "Maths") w "admin") as [H _];
    [reflexivity|reflexivity|reflexivity|].
  apply (H (nbsp +:+ " ") "Maths"); [reflexivity|reflexivity|]. left. vm_compute. reflexivity.
Defined.

(** X10: when the INSERT or the DELETE raises a database error other than
    the uniqueness one, the page shows "Error adding teacher: <e>" or
    "Error deleting teacher: <e>"; nothing is committed and the world stays
    as it is. *)
Theorem roster_statement_error env req w u e :
  w_session w = Some u → connect_error env 0 = None → method req = POST →
  execute_error env = Some e →
  (∀ name subject,
     form req !! "name" = Some name → form req !! "subject" = Some subject →
     Py.strip name ≠ "" → Py.strip subject ≠ "" →
     run (modify_teacher env req) w
     = (ModifyTeacherPage (Some (Sql.select_teachers_by_name (w_db w))) None
          (Some ("Error adding teacher: " +:+ e)), w,
        [EvExecute InsertTeacher; EvExecute SelectTeachersByName]))
  ∧ (∀ delete_name,
       form req !! "name" = None ∨ form req !! "subject" = None →
       form req !! "delete_name" = Some delete_name →
       Py.strip delete_name ≠ "" →
       run (modify_teacher env req) w
       = (ModifyTeacherPage (Some (Sql.select_teachers_by_name (w_db w))) None
            (Some ("Error deleting teacher: " +:+ e)), w,
          [EvExecute DeleteTeacher; EvExecute SelectTeachersByName])).
Proof.
  intros Hs Hc Hm He. split.
  - intros name subject Hn Hsub Hne Hse.
    rewrite (add_teacher_run env req w u name subject) by assumption.
    apply not_str_false in Hne, Hse. by rewrite Hne, Hse, He.
  - intros delete_name Hform Hd Hne.
    rewrite (delete_teacher_run env req w u delete_name) by assumption.
    apply not_str_false in Hne. by rewrite Hne, He.
Qed.

(** A database locked by another process. *)
Lemma roster_statement_error_witness :
  let env := mkEnv (λ _ _, true) (λ _, None) (Some "database is locked")
               (solve_checked (cyclic 1 5 0)) None (λ _, None) in
  let w := world_of (db_of roster5 5 []) in
  run (modify_teacher env (delete_request "Asha")) w
  = (ModifyTeacherPage (Some (Sql.select_teachers_by_name (w_db w))) None
       (Some "Error deleting teacher: database is locked"), w,
     [EvExecute DeleteTeacher; EvExecute SelectTeachersByName]).
Proof.
  intros env w.
  destruct (roster_statement_error env (delete_request "Asha") w "admin"
              "database is locked") as [_ H];
    [reflexivity|reflexivity|reflexivity|reflexivity|].
  apply (H "Asha"); [left; reflexivity|reflexivity|vm_compute; discriminate].
Defined.

Lemma insert_teacher_roster_ok db name subject db' :
  roster_ok (teachers db) → trimmed name → trimmed subject →
  Sql.insert_teacher db name subject = Some db' →
  roster_ok (teachers db') ∧ users db' = users db ∧ timetable db' = timetable db
  ∧ teachers_seq db ≤ teachers_seq db'.
Proof.
  intros (Hid & Hname & Htrim) Hn Hs. unfold Sql.insert_teacher.
  destruct (bool_decide (name ∈ t_name <$> teachers db)) eqn:Hfresh; [done|].
  apply bool_decide_eq_false in Hfresh. intros [= <-].
  cbn [teachers users timetable teachers_seq].
  destruct (foldl_max_bound (teachers_seq db) (t_id <$> teachers db)) as [Hseq Hids].
  split; [|split; [done|split; [done|lia]]].
  unfold roster_ok. rewrite !fmap_app, !NoDup_app, Forall_app. cbn.
  repeat split; try done; try apply NoDup_singleton.
  - intros x Hx ->%list_elem_of_singleton. apply Hids in Hx. lia.
  - intros x Hx ->%list_elem_of_singleton. done.
  - by apply Forall_singleton.
Qed.

Lemma delete_teacher_roster_ok db name :
  roster_ok (teachers db) →
  roster_ok (teachers (Sql.delete_teacher db name).2)
  ∧ users (Sql.delete_teacher db name).2 = users db
  ∧ timetable (Sql.delete_teacher db name).2 = timetable db
  ∧ teachers_seq (Sql.delete_teacher db name).2 = teachers_seq db.
Proof.
  intros (Hid & Hname & Htrim). unfold Sql.delete_teacher. cbn.
  split; [|done].
  pose proof (sublist_filter (λ t, t_name t ≠ name) (teachers db)) as Hsub.
  repeat split.
  - eapply sublist_NoDup; [exact Hid|]. by apply fmap_sublist.
  - eapply sublist_NoDup; [exact Hname|]. by apply fmap_sublist.
  - apply Forall_forall. intros t Ht.
    eapply (proj1 (Forall_forall _ _) Htrim), elem_of_sublist; done.
Qed.

Lemma filter_full {A} (P : A → Prop) `{∀ x, Decision (P x)} (l : list A) :
  (length l ≤ length (filter P l))%nat → filter P l = l.
Proof.
  induction l as [|x l IH]; [done|]. rewrite filter_cons.
  destruct (decide (P x)); cbn [length]; intros Hlen.
  - f_equal. apply IH. lia.
  - pose proof (length_filter P l). lia.
Qed.

(** What a request to the roster page can do to the world, and what it
    lists. *)
Lemma modify_teacher_cases env req w r w' log :
  run (modify_teacher env req) w = (r, w', log) →
  (w' = w
   ∨ (∃ name subject db',
        method req = POST ∧ trimmed name ∧ trimmed subject
        ∧ Sql.insert_teacher (w_db w) name subject = Some db'
        ∧ w' = mkWorld db' (w_session w) (w_xlsx w))
   ∨ (∃ name, method req = POST
        ∧ w' = mkWorld (Sql.delete_teacher (w_db w) name).2 (w_session w) (w_xlsx w)))
  ∧ ∀ listing s e,
      r = ModifyTeacherPage (Some listing) s e →
      listing = Sql.select_teachers_by_name (w_db w').
Proof.
  intros H.
  assert (∀ s e l,
            (ModifyTeacherPage (Some (Sql.select_teachers_by_name (w_db w))) s e, w, l)
            = (r, w', log) →
            (w' = w
             ∨ (∃ name subject db',
                  method req = POST ∧ trimmed name ∧ trimmed subject
                  ∧ Sql.insert_teacher (w_db w) name subject = Some db'
                  ∧ w' = mkWorld db' (w_session w) (w_xlsx w))
             ∨ (∃ name, method req = POST
                  ∧ w' = mkWorld (Sql.delete_teacher (w_db w) name).2
                           (w_session w) (w_xlsx w)))
            ∧ ∀ listing s e,
                r = ModifyTeacherPage (Some listing) s e →
                listing = Sql.select_teachers_by_name (w_db w')) as Hsame.
  { intros s e l [= <- <- _]. split; [by left|]. by intros listing s' e' [= <- _ _]. }
  destruct (w_session w) as [u|] eqn:Hs.
  2: { rewrite (proj1 (unauthenticated_page env req w Hs)) in H.
       injection H as <- <- _. split; [by left|]. by intros. }
  destruct (connect_error env 0) as [err|] eqn:Hc.
  { unfold run, modify_teacher in H. rewrite bind_run in H.
    unfold session_get at 1 in H. rewrite Hs in H. rewrite bind_run in H.
    unfold connect_db in H. rewrite Hc in H.
    injection H as <- <- _. split; [by left|]. by intros. }
  destruct (method req) eqn:Hm.
  { unfold run, modify_teacher in H. rewrite bind_run in H.
    unfold session_get at 1 in H. rewrite Hs in H. rewrite bind_run in H.
    unfold connect_db in H. rewrite Hc, Hm in H.
    exact (Hsame _ _ _ H). }
  destruct (form req !! "name") as [name|] eqn:Hn;
    [destruct (form req !! "subject") as [subject|] eqn:Hsub|].
  - rewrite (add_teacher_run env req w u name subject) in H by assumption.
    destruct (Py.not_str (Py.strip name)) eqn:Hne; [exact (Hsame _ _ _ H)|].
    destruct (Py.not_str (Py.strip subject)) eqn:Hse; [exact (Hsame _ _ _ H)|].
    cbn [orb] in H. destruct (execute_error env); [exact (Hsame _ _ _ H)|].
    destruct (Sql.insert_teacher _ _ _) as [db'|] eqn:Hins; [|exact (Hsame _ _ _ H)].
    injection H as <- <- _. split; [|by intros listing s e [= <- _ _]].
    right. left. exists (Py.strip name), (Py.strip subject), db'.
    apply not_str_false in Hne, Hse. rewrite Hs.
    repeat split; try done; apply strip_idemp.
  - destruct (form req !! "delete_name") as [d|] eqn:Hd.
    + rewrite (delete_teacher_run env req w u d) in H by auto.
      destruct (Py.not_str (Py.strip d)); [exact (Hsame _ _ _ H)|].
      destruct (execute_error env); [exact (Hsame _ _ _ H)|]. cbv zeta in H.
      destruct (0 <? _) eqn:Hcount.
      * injection H as <- <- _. split; [|by intros listing s e [= <- _ _]].
        right. right. exists (Py.strip d). by rewrite Hs.
      * injection H as <- <- _. split; [by left|].
        intros listing s e [= <- _ _]. unfold Sql.select_teachers_by_name.
        do 2 f_equal. unfold Sql.delete_teacher in *. cbn [fst snd teachers] in *.
        apply Z.ltb_ge in Hcount.
        apply filter_full. lia.
    + rewrite (modify_teacher_run env req w u) in H by assumption.
      unfold modify_teacher_post in H. rewrite Hn, Hsub, Hd in H.
      exact (Hsame _ _ _ H).
  - destruct (form req !! "delete_name") as [d|] eqn:Hd.
    + rewrite (delete_teacher_run env req w u d) in H by auto.
      destruct (Py.not_str (Py.strip d)); [exact (Hsame _ _ _ H)|].
      destruct (execute_error env); [exact (Hsame _ _ _ H)|]. cbv zeta in H.
      destruct (0 <? _) eqn:Hcount.
      * injection H as <- <- _. split; [|by intros listing s e [= <- _ _]].
        right. right. exists (Py.strip d). by rewrite Hs.
      * injection H as <- <- _. split; [by left|].
        intros listing s e [= <- _ _]. unfold Sql.select_teachers_by_name.
        do 2 f_equal. unfold Sql.delete_teacher in *. cbn [fst snd teachers] in *.
        apply Z.ltb_ge in Hcount.
        apply filter_full. lia.
    + rewrite (modify_teacher_run env req w u) in H by assumption.
      unfold modify_teacher_post in H. rewrite Hn, Hd in H.
      destruct (form req !! "subject"); exact (Hsame _ _ _ H).
Qed.



(** X12: whatever the request and whatever the environment does, the
    roster page keeps the roster well formed (unique ids, unique names,
    names and subjects trimmed and not empty), never lowers the
    [AUTOINCREMENT] counter, and never touches the users, the stored
    timetable, the session or the exported file; a GET changes nothing. *)
Theorem modify_teacher_keeps_roster_ok env req w r w' log :
  run (modify_teacher env req) w = (r, w', log) →
  roster_ok (teachers (w_db w)) →
  roster_ok (teachers (w_db w'))
  ∧ teachers_seq (w_db w) ≤ teachers_seq (w_db w')
  ∧ users (w_db w') = users (w_db w)
  ∧ timetable (w_db w') = timetable (w_db w)
  ∧ w_session w' = w_session w
  ∧ w_xlsx w' = w_xlsx w
  ∧ (method req = GET → w' = w).
Proof.
  intros Hrun Hok.
  destruct (modify_teacher_cases _ _ _ _ _ _ Hrun) as [Hcases _].
  destruct Hcases as [->|[(name & subject & db' & Hm & Hn & Hs & Hins & ->)
                         |(name & Hm & ->)]].
  - repeat split; try done; try apply Hok; lia.
  - destruct (insert_teacher_roster_ok _ _ _ _ Hok Hn Hs Hins) as (? & ? & ? & ?).
    cbn [w_db w_session w_xlsx].
    repeat split; try done; try apply H; congruence.
  - destruct (delete_teacher_roster_ok (w_db w) name Hok) as (? & ? & ? & Hseq).
    cbn [w_db w_session w_xlsx]. rewrite Hseq.
    repeat split; try done; try apply H; try lia; congruence.
Qed.

(** The sample roster is well formed, and stays so when "Farid" joins. *)
Lemma modify_teacher_keeps_roster_ok_witness :
  roster_ok (teachers (w_db (run (modify_teacher (env0 (solve_checked (cyclic 1 5 0)))
                                    (add_request "Farid" "History"))
                                 (world_of (db_of roster5 5 []))).1.2)).
Proof.
  refine (proj1 (modify_teacher_keeps_roster_ok
                   (env0 (solve_checked (cyclic 1 5 0)))
                   (add_request "Farid" "History") (world_of (db_of roster5 5 []))
                   _ _ _ _ _)).
  - vm_compute. reflexivity.
  - unfold roster_ok, trimmed. cbn [teachers w_db world_of db_of].
    split; [apply (bool_decide_unpack _); vm_compute; exact I|].
    split; [apply (bool_decide_unpack _); vm_compute; exact I|].
    repeat constructor; try discriminate.
Defined.



(** ** The generator, further *)

Lemma grid_entries_unique g : unique_slots (grid_entries g).
Proof.
  unfold unique_slots. rewrite grid_entries_slots.
  apply (bool_decide_unpack _). vm_compute. exact I.
Qed.

Lemma triple_eta {A B C} (x : A * B * C) : x = (x.1.1, x.1.2, x.2).
Proof. by destruct x as [[? ?] ?]. Qed.


Lemma generate_outcome_cases env w :
  let r := (generate_outcome env w).1.1 in
  let w' := (generate_outcome env w).1.2 in
  let log := (generate_outcome env w).2 in
  ((∃ msg status, r = JsonError msg status ∧ status ≠ 200) ∧ w' = w
     ∧ Forall (λ e, is_write e = false) log)
  ∨ (∃ k e, first_error (save_error env) save_steps = Some (k, e)
       ∧ r = Crash e
       ∧ w' = (if decide (k < 2)%nat then w else with_timetable w []))
  ∨ (∃ g msg, r = JsonTimetable g msg ∧ w' = with_timetable w (grid_entries g)
       ∧ first_error (save_error env) save_steps = None).
Proof.
  cbv zeta. unfold generate_outcome.
  destruct (w_session w) as [u|].
  2: { left. cbn [fst snd]. split; [by eexists _, _|]. split; [done|constructor]. }
  destruct (connect_error env 0) as [err|].
  { left. cbn [fst snd]. split; [by eexists _, _|].
    split; [done|repeat constructor]. }
  destruct (Py.min _) as [lo|].
  2: { left. cbn [fst snd]. split; [by eexists _, _|].
       split; [done|repeat constructor]. }
  destruct (Py.max _) as [hi|].
  2: { left. cbn [fst snd]. split; [by eexists _, _|].
       split; [done|repeat constructor]. }
  pose proof (var_events_no_write lo hi) as Hv.
  pose proof (constraint_events_no_write period_constraints) as Hp.
  pose proof (constraint_events_no_write class_constraints) as Hcc.
  destruct (decide _).
  { left. cbn [fst snd]. split; [by eexists _, _|]. split; [done|].
    rewrite Forall_app. split; [repeat constructor|done]. }
  destruct (decide _).
  { left. cbn [fst snd]. split; [by eexists _, _|]. split; [done|].
    rewrite !Forall_app. repeat split; [repeat constructor|done|done]. }
  cbv zeta. destruct (_ || _).
  - destruct (connect_error env 1) as [err|].
    + left. cbn [fst snd]. split; [by eexists _, _|]. split; [done|].
      rewrite !Forall_app.
      repeat split; [repeat constructor|done|done|done|repeat constructor..].
    + destruct (first_error _ _) as [[k e]|]; cbn [fst snd].
      * right. left. by exists k, e.
      * right. right. eexists _, _. split; [reflexivity|].
        by rewrite grid_entries_new_grid.
  - left. cbn [fst snd]. split; [by eexists _, _|]. split; [done|].
    rewrite !Forall_app.
    repeat split; [repeat constructor|done|done|done|repeat constructor].
Qed.

(** X14: a generation request never changes the users, the roster, its
    [AUTOINCREMENT] counter, the session or the exported file, and has one
    of three outcomes.  It answers with an error of a status other than
    200, having written nothing: the world is as it was.  Or a statement
    or commit of the save phase raises, which nothing catches: the request
    ends with that error, and the stored timetable is as it was when the
    [DELETE] or its commit raised, and empty when an [INSERT] or the last
    commit raised, the [DELETE] being committed before the rows are
    inserted.  Or it answers with a grid, and the stored timetable is the
    20 rows of that grid, one per class and period. *)
Theorem generate_touches_only_the_timetable env w r w' log :
  run (generate_timetable_process env) w = (r, w', log) →
  (users (w_db w') = users (w_db w) ∧ teachers (w_db w') = teachers (w_db w)
   ∧ teachers_seq (w_db w') = teachers_seq (w_db w)
   ∧ w_session w' = w_session w ∧ w_xlsx w' = w_xlsx w)
  ∧ ((∃ msg status, r = JsonError msg status ∧ status ≠ 200) ∧ w' = w
       ∧ Forall (λ e, is_write e = false) log
     ∨ (∃ k e, first_error (save_error env) save_steps = Some (k, e)
          ∧ r = Crash e
          ∧ (k < 2 → w' = w)%nat
          ∧ (2 ≤ k → timetable (w_db w') = [])%nat)
     ∨ (∃ g msg,
          r = JsonTimetable g msg
          ∧ first_error (save_error env) save_steps = None
          ∧ timetable (w_db w') = grid_entries g
          ∧ unique_slots (timetable (w_db w'))
          ∧ (λ e, (class_name e, slot e)) <$> timetable (w_db w') = grid_slots)).
Proof.
  rewrite generate_run. intros Hrun.
  pose proof (generate_outcome_cases env w) as Hcases. cbv zeta in Hcases.
  rewrite Hrun in Hcases. cbn [fst snd] in Hcases.
  destruct Hcases as [(Hr & -> & Hlog)|[(k & e & Hk & Hr & ->)|(g & msg & Hr & -> & Hk)]].
  - split; [done|]. by left.
  - split; [by destruct (decide (k < 2)%nat)|]. right. left.
    exists k, e. split; [done|]. split; [done|].
    destruct (decide (k < 2)%nat); split; try done; lia.
  - split; [done|]. right. right. exists g, msg.
    split; [done|]. split; [done|]. cbn [with_timetable w_db timetable].
    split; [done|]. split; [apply grid_entries_unique|apply grid_entries_slots].
Qed.

(** Over the sample store: a solver that finds nothing, a database that
    gets locked at the third [INSERT], and a run without faults. *)
Lemma generate_touches_only_the_timetable_witness :
  let w := world_of (db_of roster5 5 old_table) in
  let locked := mkEnv (λ _ _, true) (λ _, None) None (solve_checked (cyclic 1 5 0)) None
                  (λ step, match step with
                           | InsertRow "MCA I" 3 => Some "database is locked"
                           | _ => None
                           end) in
  (run (generate_timetable_process (env0 (solve_checked (λ _, 1)))) w).1.2 = w
  ∧ (run (generate_timetable_process locked) w).1
    = (Crash "database is locked", world_of (db_of roster5 5 []))
  ∧ teachers (w_db (run (generate_timetable_process
                           (env0 (solve_checked (cyclic 1 5 0)))) w).1.2) = roster5.
Proof.
  intros w locked. split; [|split].
  - destruct (generate_touches_only_the_timetable (env0 (solve_checked (λ _, 1))) w
                _ _ _ (triple_eta _))
      as [_ [(_ & Hw & _)|[(k & e & Hk & _)|(g & msg & _ & Hk & _)]]]; [exact Hw|..].
    + vm_compute in Hk. discriminate Hk.
    + destruct (run (generate_timetable_process (env0 (solve_checked (λ _, 1)))) w)
        as [[r w'] log] eqn:Hrun.
      vm_compute in Hrun. injection Hrun as <- <- _. reflexivity.
  - reflexivity.
  - destruct (generate_touches_only_the_timetable
                (env0 (solve_checked (cyclic 1 5 0))) w _ _ _ (triple_eta _))
      as [(_ & Ht & _) _]. exact Ht.
Defined.






(** X16: when the solver has found an assignment but the database cannot
    be opened for saving, the answer is 500 "Database connection failed for
    saving."; the result of the solver is dropped and the world stays as it
    is. *)
Theorem save_connection_failure env w u lo hi e :
  w_session w = Some u → connect_error env 0 = None →
  let ids := t_id <$> teachers (w_db w) in
  Py.min ids = Some lo → Py.max ids = Some hi → (5 ≤ Py.len_set ids)%nat →
  let status :=
    (solver env (timetable_model lo hi (period_constraints ++ class_constraints))).1 in
  status = Cp.OPTIMAL ∨ status = Cp.FEASIBLE →
  connect_error env 1 = Some e →
  ∃ log,
    run (generate_timetable_process env) w
    = (JsonError "Database connection failed for saving." 500, w, log)
    ∧ EvSolve ∈ log
    ∧ Forall (λ ev, is_write ev = false) log.
Proof.
  intros Hs Hc ids Hlo Hhi Hn status Hstatus Hc1.
  rewrite generate_run. unfold generate_outcome.
  rewrite Hs, Hc. fold ids. rewrite Hlo, Hhi.
  rewrite !decide_False by lia. fold status.
  replace ((status =? Cp.OPTIMAL) || (status =? Cp.FEASIBLE)) with true.
  2: { symmetry. apply orb_true_iff.
       destruct Hstatus as [-> | ->]; [left|right]; reflexivity. }
  rewrite Hc1. eexists. split; [reflexivity|]. split.
  - rewrite !elem_of_app. left. right. right. left.
  - rewrite !Forall_app. repeat split;
      [repeat constructor|apply var_events_no_write
      |apply constraint_events_no_write|apply constraint_events_no_write
      |repeat constructor|repeat constructor].
Qed.

(** The database file vanishes while the solver runs. *)
Lemma save_connection_failure_witness :
  let env := mkEnv (λ _ _, true)
               (λ k, if decide (k = 0%nat) then None else Some "unable to open database file")
               None (solve_checked (cyclic 1 5 0)) None (λ _, None) in
  let w := world_of (db_of roster5 5 old_table) in
  (run (generate_timetable_process env) w).1
  = (JsonError "Database connection failed for saving." 500, w).
Proof.
  intros env w.
  destruct (save_connection_failure env w "admin" 1 5 "unable to open database file")
    as (log & Hrun & _).
  - reflexivity.
  - reflexivity.
  - reflexivity.
  - reflexivity.
  - vm_compute. lia.
  - left. vm_compute. reflexivity.
  - reflexivity.
  - by rewrite Hrun.
Defined.
(** ** The model behind the checks *)

Lemma foldl_min_bound (a : Z) (l : list Z) :
  foldl Z.min a l ≤ a ∧ ∀ x, x ∈ l → foldl Z.min a l ≤ x.
Proof.
  revert a. induction l as [|y l IH]; intros a; cbn [foldl].
  - split; [lia|]. by intros x ?%elem_of_nil.
  - destruct (IH (Z.min a y)) as [Ha Hl]. split; [lia|].
    intros x [->|Hx]%elem_of_cons; [lia|by apply Hl].
Qed.

(** Every id lies between [min(ids)] and [max(ids)]. *)
Lemma ids_within (ids : list Z) lo hi z :
  Py.min ids = Some lo → Py.max ids = Some hi → z ∈ ids → lo ≤ z ≤ hi.
Proof.
  destruct ids as [|a l]; [done|]. cbn [Py.min Py.max].
  intros [= <-] [= <-] Hz.
  destruct (foldl_min_bound a l) as [Hlo Hlo'].
  destruct (foldl_max_bound a l) as [Hhi Hhi'].
  apply elem_of_cons in Hz as [->|Hz]; [lia|].
  split; [by apply Hlo'|by apply Hhi'].
Qed.

(** There are at most [max - min + 1] distinct ids. *)
Lemma len_set_width (ids : list Z) lo hi :
  Py.min ids = Some lo → Py.max ids = Some hi →
  (Py.len_set ids ≤ Z.to_nat (hi - lo + 1))%nat.
Proof.
  intros Hlo Hhi. unfold Py.len_set.
  rewrite <- (length_seqZ lo (hi - lo + 1)).
  rewrite <- (size_list_to_set (C := gset Z) (seqZ lo (hi - lo + 1)))
    by apply NoDup_seqZ.
  apply subseteq_size. intros z Hz%elem_of_list_to_set.
  apply elem_of_list_to_set, elem_of_seqZ.
  pose proof (ids_within ids lo hi z Hlo Hhi Hz). lia.
Qed.

(** When the distinct ids fill the interval, every value of the interval
    is an id. *)
Lemma full_interval (ids : list Z) lo hi z :
  Py.min ids = Some lo → Py.max ids = Some hi →
  Py.len_set ids = Z.to_nat (hi - lo + 1) → lo ≤ z ≤ hi → z ∈ ids.
Proof.
  intros Hlo Hhi Hn Hz.
  assert ((list_to_set ids : gset Z) = list_to_set (seqZ lo (hi - lo + 1))) as Heq.
  { apply set_subseteq_size_eq.
    - intros x Hx%elem_of_list_to_set. apply elem_of_list_to_set, elem_of_seqZ.
      pose proof (ids_within ids lo hi x Hlo Hhi Hx). lia.
    - rewrite size_list_to_set by apply NoDup_seqZ. rewrite length_seqZ.
      unfold Py.len_set in Hn. by rewrite Hn. }
  apply (elem_of_list_to_set (C := gset Z)). rewrite Heq.
  apply elem_of_list_to_set, elem_of_seqZ. lia.
Qed.

(** Two variables whose class and period indices add up to sums less than
    [n] apart take different values under the cyclic assignment. *)
Lemma cyclic_differ base n i j :
  let a := Z.of_nat i `div` 5 + Z.of_nat i `mod` 5 in
  let b := Z.of_nat j `div` 5 + Z.of_nat j `mod` 5 in
  5 ≤ n → a ≠ b → -5 < a - b < 5 → cyclic base n 0 i ≠ cyclic base n 0 j.
Proof.
  intros a b Hn Hab Hclose. unfold cyclic. fold a b. rewrite !Z.add_0_r.
  intros Heq. assert (a `mod` n = b `mod` n) as Hmod by lia.
  pose proof (Z.div_mod a n) as Ha. pose proof (Z.div_mod b n) as Hb.
  assert (a - b = n * (a `div` n - b `div` n)) as Hdiff by lia.
  destruct (Z.lt_trichotomy (a `div` n - b `div` n) 0) as [Hq|[Hq|Hq]]; nia.
Qed.

(** The model that reaches the solver always has a solution: teacher ids
    taken cyclically from the interval of the variables. *)
Lemma timetable_model_solution (ids : list Z) lo hi :
  Py.min ids = Some lo → Py.max ids = Some hi → (5 ≤ Py.len_set ids)%nat →
  Cp.solution (cyclic lo (hi - lo + 1) 0)
    (timetable_model lo hi (period_constraints ++ class_constraints)).
Proof.
  intros Hlo Hhi Hn. pose proof (len_set_width ids lo hi Hlo Hhi) as Hw.
  assert (5 ≤ hi - lo + 1) as Hwide by lia.
  split.
  - apply Forall_lookup. intros i [k x] Hix. cbn [timetable_model Cp.variables] in Hix.
    rewrite list_lookup_imap, list_lookup_fmap in Hix.
    destruct (grid_slots !! i) as [sl|]; [|discriminate Hix].
    cbn in Hix. injection Hix as <- <-.
    unfold Cp.in_domain, cyclic. cbn [fst snd Cp.lb Cp.ub].
    pose proof (Z.mod_pos_bound (Z.of_nat i `div` 5 + Z.of_nat i `mod` 5 + 0)
                  (hi - lo + 1)). lia.
  - cbn [timetable_model Cp.constraints].
    assert (∀ i j : nat,
              bool_decide
                (Z.of_nat i `div` 5 + Z.of_nat i `mod` 5
                   ≠ Z.of_nat j `div` 5 + Z.of_nat j `mod` 5
                 ∧ -5 < Z.of_nat i `div` 5 + Z.of_nat i `mod` 5
                        - (Z.of_nat j `div` 5 + Z.of_nat j `mod` 5) < 5) = true →
              cyclic lo (hi - lo + 1) 0 i ≠ cyclic lo (hi - lo + 1) 0 j) as Hdiffer.
    { intros i j [Hab Hclose]%bool_decide_eq_true.
      by apply cyclic_differ. }
    unfold period_constraints, class_constraints.
    cbn [fmap list_fmap seq app Nat.mul Nat.add].
    repeat (apply Forall_cons; split); [..|apply Forall_nil];
      repeat (apply NoDup_cons; split); try apply NoDup_nil;
      repeat (rewrite not_elem_of_cons); repeat split;
      try apply not_elem_of_nil; apply Hdiffer; vm_compute; reflexivity.
Qed.
(** What a successful request tells about the request. *)
Lemma generate_success_inv env w g msg w' log :
  run (generate_timetable_process env) w = (JsonTimetable g msg, w', log) →
  is_Some (w_session w) ∧ connect_error env 0 = None ∧ connect_error env 1 = None
  ∧ msg = "Timetable generated successfully!"
  ∧ ∃ Value,
      g = new_grid (teachers_map_of (teachers (w_db w))) Value
      ∧ w' = with_timetable w (new_entries (teachers_map_of (teachers (w_db w))) Value).
Proof.
  rewrite generate_run. unfold generate_outcome. intros H.
  destruct (w_session w); [|discriminate H].
  destruct (connect_error env 0); [discriminate H|].
  destruct (Py.min _) as [lo|]; [|discriminate H].
  destruct (Py.max _) as [hi|]; [|discriminate H].
  destruct (decide _); [discriminate H|].
  destruct (decide _); [discriminate H|].
  destruct (_ || _); [|discriminate H].
  destruct (connect_error env 1); [discriminate H|].
  destruct (first_error _ _) as [[k err]|]; [discriminate H|].
  pose proof (f_equal (λ x, x.1.1) H) as Hg.
  pose proof (f_equal (λ x, x.1.2) H) as Hw.
  cbn [fst snd] in Hg, Hw. injection Hg as Hg Hmsg.
  split; [by eexists|]. split; [done|]. split; [done|]. split; [done|].
  eexists. split; [symmetry; exact Hg|symmetry; exact Hw].
Qed.

Lemma infeasible_message_only_for_infeasible status :
  failure_message status = infeasible_message → status = Cp.INFEASIBLE.
Proof.
  unfold failure_message.
  destruct (status =? Cp.INFEASIBLE) eqn:H3; [intros _; by apply Z.eqb_eq|].
  destruct (status =? Cp.MODEL_INVALID); [intros H; vm_compute in H; discriminate H|].
  destruct (status =? Cp.UNKNOWN); intros H; vm_compute in H; discriminate H.
Qed.

(** X17: the check on the number of distinct teachers makes the model
    satisfiable.  Whenever the endpoint answers that the teachers and
    classes make a timetable impossible, the solver has reported
    [INFEASIBLE] for a model that has a solution: the teacher ids taken
    cyclically from the interval of the variables. *)
Theorem infeasible_answer_is_never_true env w w' log :
  run (generate_timetable_process env) w = (JsonError infeasible_message 500, w', log) →
  ∃ lo hi,
    let ids := t_id <$> teachers (w_db w) in
    let model := timetable_model lo hi (period_constraints ++ class_constraints) in
    Py.min ids = Some lo ∧ Py.max ids = Some hi
    ∧ (solver env model).1 = Cp.INFEASIBLE
    ∧ Cp.solution (cyclic lo (hi - lo + 1) 0) model.
Proof.
  rewrite generate_run. unfold generate_outcome. intros H.
  destruct (w_session w); [|discriminate H].
  destruct (connect_error env 0);
    [pose proof (f_equal (λ x, x.1.1) H) as Hr; vm_compute in Hr; discriminate Hr|].
  destruct (Py.min _) as [lo|] eqn:Hlo; [|discriminate H].
  destruct (Py.max _) as [hi|] eqn:Hhi; [|discriminate H].
  destruct (decide _); [discriminate H|].
  destruct (decide _); [discriminate H|].
  cbv zeta in H. exists lo, hi. cbv zeta.
  split; [done|]. split; [done|].
  split; [|apply (timetable_model_solution _ lo hi Hlo Hhi); lia].
  destruct (_ || _).
  - destruct (connect_error env 1).
    + pose proof (f_equal (λ x, x.1.1) H) as Hr. vm_compute in Hr. discriminate Hr.
    + destruct (first_error _ _) as [[k err]|]; discriminate H.
  - pose proof (f_equal (λ x, x.1.1) H) as Hr. cbn [fst] in Hr.
    injection Hr as Hr. by apply infeasible_message_only_for_infeasible.
Qed.

(** A solver that gives up on the five-teacher roster with [INFEASIBLE]. *)
Lemma infeasible_answer_is_never_true_witness :
  let env := env0 (λ _, (Cp.INFEASIBLE, λ _, 0)) in
  let w := world_of (db_of roster5 5 old_table) in
  (run (generate_timetable_process env) w).1.1 = JsonError infeasible_message 500
  ∧ Cp.solution (cyclic 1 5 0)
      (timetable_model 1 5 (period_constraints ++ class_constraints)).
Proof.
  intros env w.
  assert (run (generate_timetable_process env) w
          = (JsonError infeasible_message 500,
             (run (generate_timetable_process env) w).1.2,
             (run (generate_timetable_process env) w).2)) as Hrun
    by (vm_compute; reflexivity).
  split; [by rewrite Hrun|].
  destruct (infeasible_answer_is_never_true env w _ _ Hrun)
    as (lo & hi & Hlo & Hhi & _ & Hsol).
  vm_compute in Hlo, Hhi. injection Hlo as <-. injection Hhi as <-. exact Hsol.
Defined.

(** X18: a roster without gaps gets a timetable without conflicts.  When
    the ids of the roster are distinct and fill the interval from the
    smallest to the largest (no teacher in between was deleted), the names
    are distinct and the solver is sound, the rows stored by a successful
    request name teachers of the roster only, one per class and period,
    with different teachers for the classes of a period and for the
    periods of a class. *)
Theorem gap_free_roster_is_conflict_free env w g msg w' log lo hi :
  let roster := teachers (w_db w) in
  let ids := t_id <$> roster in
  NoDup ids → NoDup (t_name <$> roster) →
  Py.min ids = Some lo → Py.max ids = Some hi →
  Z.of_nat (length roster) = hi - lo + 1 →
  (∀ m, Cp.sound m (solver env m)) →
  run (generate_timetable_process env) w = (JsonTimetable g msg, w', log) →
  let tt := timetable (w_db w') in
  tt = grid_entries g
  ∧ (λ e, (class_name e, slot e)) <$> tt = grid_slots
  ∧ (∀ e, e ∈ tt → teacher_name e ∈ t_name <$> roster)
  ∧ (∀ p, p ∈ periods → NoDup (teacher_name <$> filter (λ e, slot e = p) tt))
  ∧ (∀ c, c ∈ classes → NoDup (teacher_name <$> filter (λ e, class_name e = c) tt)).
Proof.
  intros roster ids Hid Hname Hlo Hhi Hlen Hsound Hrun.
  split.
  { destruct (generate_success _ _ _ _ _ _ Hrun) as (V & l & _ & -> & _).
    reflexivity. }
  apply (generation_distinct_teachers env w g msg w' log); try done.
  intros lo' hi' z Hlo' Hhi' Hz. fold roster ids in Hlo', Hhi'.
  rewrite Hlo in Hlo'. rewrite Hhi in Hhi'.
  injection Hlo' as <-. injection Hhi' as <-.
  apply (full_interval ids lo hi z); [done|done| |done].
  unfold Py.len_set. rewrite size_list_to_set by done.
  unfold ids. rewrite length_fmap. lia.
Qed.

(** The roster of five on ids 1..5. *)
Lemma gap_free_roster_is_conflict_free_witness :
  let env := env0 (solve_checked (cyclic 1 5 0)) in
  let w := world_of (db_of roster5 5 old_table) in
  let tt := timetable (w_db (run (generate_timetable_process env) w).1.2) in
  NoDup (teacher_name <$> filter (λ e, class_name e = "MCA I") tt).
Proof.
  intros env w tt.
  assert (("MCA I" : string) ∈ classes) as Hclass by left. revert Hclass.
  generalize ("MCA I" : string).
  assert (run (generate_timetable_process env) w
          = (JsonTimetable (new_grid (teachers_map_of roster5) (cyclic 1 5 0))
               "Timetable generated successfully!",
             (run (generate_timetable_process env) w).1.2,
             (run (generate_timetable_process env) w).2))
    as Hrun by (vm_compute; reflexivity).
  refine (proj2 (proj2 (proj2 (proj2
    (gap_free_roster_is_conflict_free env w _ _ _ _ 1 5 _ _ _ _ _ _ Hrun))))).
  - apply (bool_decide_unpack _). vm_compute. exact I.
  - apply (bool_decide_unpack _). vm_compute. exact I.
  - reflexivity.
  - reflexivity.
  - reflexivity.
  - apply solve_checked_sound.
Defined.
(** ** From the generator to the viewer and the exporter *)

(** The viewer's grid and the exporter's sheet over the rows written by the
    save loop, for any naming [f] of the twenty variables. *)
Lemma saved_rows_shown tmap Value :
  let tt := new_entries tmap Value in
  let g := new_grid tmap Value in
  foldl placed ∅ (Sql.order_by Sql.entry_le tt) = (fmap (M := list) Some <$> g)
  ∧ slot_warnings (Sql.order_by Sql.entry_le tt) = []
  ∧ pivot_df (Sql.order_by Sql.entry_le tt)
    = {| columns := ["Class"; "Period 1"; "Period 2"; "Period 3"; "Period 4"; "Period 5"];
         rows := (λ c, Some c :: fmap (M := list) Some (default [] (g !! c))) <$> classes |}.
Proof.
  cbv zeta. unfold new_entries, new_grid.
  generalize (name_of tmap). intros nm.
  split; [|split]; vm_compute; reflexivity.
Qed.

(** X19: what the generator returns is what the viewer shows.  After a
    successful generation the viewer answers with the returned grid, every
    cell filled, and prints no warning. *)
Theorem generate_then_view env w g msg w' log :
  run (generate_timetable_process env) w = (JsonTimetable g msg, w', log) →
  run (view_generate_timetable_page env) w'
  = (TimetablePage (Some (fmap (M := list) Some <$> g)) None, w', [EvExecute SelectTimetable]).
Proof.
  intros Hrun.
  destruct (generate_success_inv _ _ _ _ _ _ Hrun)
    as ([u Hs] & Hc & _ & _ & V & -> & ->).
  rewrite (view_run env _ u) by done.
  unfold Sql.select_timetable. cbn [with_timetable w_db timetable].
  destruct (saved_rows_shown (teachers_map_of (teachers (w_db w))) V)
    as (Hgrid & Hwarn & _).
  by rewrite Hgrid, Hwarn.
Qed.

(** Generation and view over the sample store. *)
Lemma generate_then_view_witness :
  let env := env0 (solve_checked (cyclic 1 5 0)) in
  let r := run (generate_timetable_process env) (world_of (db_of roster5 5 old_table)) in
  ∃ grid,
    (run (view_generate_timetable_page env) r.1.2).1.1 = TimetablePage (Some grid) None
    ∧ grid !! "MCA I"
      = Some [Some "Asha"; Some "Binu"; Some "Chitra"; Some "Dev"; Some "Esha"].
Proof.
  intros env r.
  assert (r = (JsonTimetable (new_grid (teachers_map_of roster5) (cyclic 1 5 0))
                 "Timetable generated successfully!", r.1.2, r.2)) as Hrun
    by (vm_compute; reflexivity).
  eexists. rewrite (generate_then_view env _ _ _ _ _ Hrun).
  split; [reflexivity|]. vm_compute. reflexivity.
Defined.

(** X20: what the generator returns is what the exporter writes.  After a
    successful generation, and unless the spreadsheet writer fails, the
    exported sheet has the header Class, Period 1, ..., Period 5 and one
    row for each of the four classes, in the order of the class list,
    holding the class name and the five teachers of the returned grid. *)
Theorem generate_then_export env w g msg w' log :
  run (generate_timetable_process env) w = (JsonTimetable g msg, w', log) →
  excel_error env = None →
  run (export_timetable env) w'
  = (Text "Timetable exported successfully to timetable.xlsx!" 200,
     mkWorld (w_db w') (w_session w')
       (Some {| columns := ["Class"; "Period 1"; "Period 2"; "Period 3";
                            "Period 4"; "Period 5"];
                rows := (λ c, Some c :: fmap (M := list) Some (default [] (g !! c))) <$> classes |}),
     [EvExecute SelectTimetable; EvToExcel "timetable.xlsx"]).
Proof.
  intros Hrun Hx.
  destruct (generate_success_inv _ _ _ _ _ _ Hrun)
    as ([u Hs] & Hc & _ & _ & V & -> & ->).
  rewrite (export_run env _ u) by done. rewrite Hx.
  unfold Sql.select_timetable. cbn [with_timetable w_db w_session timetable].
  destruct (saved_rows_shown (teachers_map_of (teachers (w_db w))) V)
    as (_ & _ & Hdf).
  by rewrite Hdf.
Qed.

(** Generation and export over the sample store. *)
Lemma generate_then_export_witness :
  let env := env0 (solve_checked (cyclic 1 5 0)) in
  let r := run (generate_timetable_process env) (world_of (db_of roster5 5 old_table)) in
  (rows <$> w_xlsx (run (export_timetable env) r.1.2).1.2)
  = Some [[Some "MCA I"; Some "Asha"; Some "Binu"; Some "Chitra"; Some "Dev"; Some "Esha"];
          [Some "MCA II"; Some "Binu"; Some "Chitra"; Some "Dev"; Some "Esha"; Some "Asha"];
          [Some "MSC I"; Some "Chitra"; Some "Dev"; Some "Esha"; Some "Asha"; Some "Binu"];
          [Some "MSC II"; Some "Dev"; Some "Esha"; Some "Asha"; Some "Binu"; Some "Chitra"]].
Proof.
  intros env r.
  assert (r = (JsonTimetable (new_grid (teachers_map_of roster5) (cyclic 1 5 0))
                 "Timetable generated successfully!", r.1.2, r.2)) as Hrun
    by (vm_compute; reflexivity).
  rewrite (generate_then_export env _ _ _ _ _ Hrun eq_refl).
  vm_compute. reflexivity.
Defined.

(** X21: when writing the spreadsheet fails, the exporter answers 500
    with the text of the error, prints it, and leaves the database and the
    session as they are. *)
Theorem export_writer_failure env w u e :
  w_session w = Some u → connect_error env 0 = None →
  timetable (w_db w) ≠ [] → excel_error env = Some e →
  ∃ w',
    run (export_timetable env) w
    = (Text ("Error exporting timetable: " +:+ e) 500, w',
       [EvExecute SelectTimetable; EvPrint ("Error exporting timetable: " +:+ e)])
    ∧ w_db w' = w_db w ∧ w_session w' = w_session w.
Proof.
  intros Hs Hc Htt Hx. rewrite (export_run env w u) by done.
  destruct (Sql.select_timetable (w_db w)) eqn:Hf.
  - exfalso. by apply Htt, select_timetable_nil.
  - rewrite Hx. by exists w.
Qed.

(** A disk that is full. *)
Lemma export_writer_failure_witness :
  let env := mkEnv (λ _ _, true) (λ _, None) None (solve_checked (cyclic 1 5 0))
               (Some "[Errno 28] No space left on device") (λ _, None) in
  (run (export_timetable env) (world_of (db_of roster5 5 sample_table))).1.1
  = Text "Error exporting timetable: [Errno 28] No space left on device" 500.
Proof.
  intros env.
  destruct (export_writer_failure env (world_of (db_of roster5 5 sample_table))
              "admin" "[Errno 28] No space left on device")
    as (w' & Hrun & _); [reflexivity|reflexivity|discriminate|reflexivity|].
  by rewrite Hrun.
Defined.

(** ** The timetable table *)

Lemma same_slot_spec a b :
  Sql.same_slot a b = true ↔ class_name a = class_name b ∧ slot a = slot b.
Proof.
  unfold Sql.same_slot. by rewrite andb_true_iff, String.eqb_eq, Z.eqb_eq.
Qed.

Lemma elem_of_List_filter {A} (f : A → bool) l x :
  x ∈ List.filter f l ↔ x ∈ l ∧ f x = true.
Proof. rewrite !list_elem_of_In. apply filter_In. Qed.

Lemma unique_slots_List_filter (f : Entry → bool) tt :
  unique_slots tt → unique_slots (List.filter f tt).
Proof.
  unfold unique_slots. induction tt as [|x tt IH]; [done|].
  cbn [List.filter]. rewrite fmap_cons. intros [Hx Hnd]%NoDup_cons.
  destruct (f x); [|by apply IH]. rewrite fmap_cons. apply NoDup_cons.
  split; [|by apply IH].
  intros (y & Hy & [Hin _]%elem_of_List_filter)%list_elem_of_fmap.
  apply Hx, list_elem_of_fmap. by exists y.
Qed.

(** X22: the table keeps one row per class and slot.  An insert under
    [UNIQUE(class_name, slot) ON CONFLICT REPLACE] keeps the rows of the
    other slots, puts the new row in place of the one of its slot, and
    so preserves the uniqueness. *)
Theorem insert_timetable_replaces db e :
  unique_slots (timetable db) →
  let tt' := timetable (Sql.insert_timetable db e) in
  unique_slots tt'
  ∧ (∀ r, r ∈ tt' ↔
       r = e ∨ (r ∈ timetable db
                ∧ ¬ (class_name r = class_name e ∧ slot r = slot e)))
  ∧ (length tt' ≤ S (length (timetable db)))%nat.
Proof.
  intros Huniq. cbn [Sql.insert_timetable timetable].
  assert (∀ r, r ∈ List.filter (λ r, negb (Sql.same_slot r e)) (timetable db) ↔
               r ∈ timetable db ∧ ¬ (class_name r = class_name e ∧ slot r = slot e))
    as Hkept.
  { intros r. rewrite elem_of_List_filter, negb_true_iff, <- same_slot_spec.
    destruct (Sql.same_slot r e); intuition congruence. }
  split; [|split].
  - unfold unique_slots. rewrite fmap_app. apply NoDup_app.
    split; [by apply unique_slots_List_filter|]. split; [|apply NoDup_singleton].
    intros p (r & -> & [_ Hr]%Hkept)%list_elem_of_fmap Hp.
    apply list_elem_of_singleton in Hp. injection Hp as Hc Hsl. by apply Hr.
  - intros r. rewrite elem_of_app, list_elem_of_singleton, Hkept. tauto.
  - rewrite length_app. cbn [length].
    pose proof (filter_length_le (λ r, negb (Sql.same_slot r e)) (timetable db)). lia.
Qed.

(** A second teacher for a slot of the sample table takes the place of
    the first. *)
Lemma insert_timetable_replaces_witness :
  let db := db_of roster5 5 sample_table in
  let e := mkEntry "MCA I" 1 "Binu" in
  e ∈ timetable (Sql.insert_timetable db e)
  ∧ (mkEntry "MCA I" 1 "Asha" ∉ timetable (Sql.insert_timetable db e)).
Proof.
  intros db e.
  destruct (insert_timetable_replaces db e) as (_ & Hrows & _).
  { apply (bool_decide_unpack _). vm_compute. exact I. }
  split.
  - apply Hrows. by left.
  - intros [Heq|[_ Hne]]%Hrows; [discriminate Heq|]. by apply Hne.
Defined.
